(** * gen_mon_command_api: the monitor command reference generator

    A shallow embedding of [doc/scripts/gen_mon_command_api.py] and the
    properties of its selection pipeline, parameter model and flag set.

    The script reads a JSON manifest, so every field value is a dynamically
    typed Python object.  Values are embedded as [Py.value] (the JSON
    scalars without floats), exceptions as [Py.exn], and every operation
    that can raise returns a [Py.result].  Python strings are embedded as
    [string], one character per code unit; comparison and containment on
    UTF-8 code units agree with Python's on code points. *)

From Stdlib Require Import ZArith String Ascii List Bool Lia DecimalString.
From Stdlib Require Import Sorting.Sorted Sorting.Permutation.
From stdpp Require Import base option list gmap strings sorting.

Local Open Scope Z_scope.

(** ** Python values, exceptions and the builtins the script relies on *)

Module Py.

Inductive value : Type :=
| VNone
| VBool (b : bool)
| VInt (z : Z)
| VStr (s : string).

Inductive exn : Type :=
| TypeError
| AttributeError
| KeyError
| IndexError
| AssertionError.

Inductive result (A : Type) : Type :=
| Ok (a : A)
| Raise (e : exn).
Arguments Ok {A} a.
Arguments Raise {A} e.

#[global] Instance result_ret : MRet result := fun A a => Ok a.
#[global] Instance result_bind : MBind result := fun A B f m =>
  match m with
  | Ok a => f a
  | Raise e => Raise e
  end.

(** [bool(v)] *)
Definition truthy (v : value) : bool :=
  match v with
  | VNone => false
  | VBool b => b
  | VInt z => negb (z =? 0)
  | VStr s => negb (s =? EmptyString)%string
  end.

(** [a == b]; a bool compares as the integer 0 or 1. *)
Definition equal (a b : value) : bool :=
  match a, b with
  | VNone, VNone => true
  | VStr s, VStr t => (s =? t)%string
  | VBool x, VBool y => Bool.eqb x y
  | VInt x, VInt y => x =? y
  | VBool x, VInt y => Z.b2z x =? y
  | VInt x, VBool y => x =? Z.b2z y
  | _, _ => false
  end.

(** [a != b] *)
Definition not_equal (a b : value) : bool := negb (equal a b).

(** [str(v)], which is also what [format] substitutes for [{}]. *)
Definition str (v : value) : string :=
  match v with
  | VNone => "None"
  | VBool true => "True"
  | VBool false => "False"
  | VInt z => NilZero.string_of_int (Z.to_int z)
  | VStr s => s
  end.

(** [lit + v] for a string literal [lit]. *)
Definition str_add (lit : string) (v : value) : result string :=
  match v with
  | VStr s => Ok (lit +:+ s)
  | _ => Raise TypeError
  end.

(** [v + lit] for a string literal [lit]. *)
Definition add_lit (v : value) (lit : string) : result string :=
  match v with
  | VStr s => Ok (s +:+ lit)
  | _ => Raise TypeError
  end.

(** [v & k] for an integer [k]. *)
Definition band (v : value) (k : Z) : result Z :=
  match v with
  | VInt z => Ok (Z.land z k)
  | VBool b => Ok (Z.land (Z.b2z b) k)
  | _ => Raise TypeError
  end.

(** [s.split(sep)] for a one-character separator. *)
Fixpoint split (sep : ascii) (s : string) : list string :=
  match s with
  | EmptyString => [EmptyString]
  | String c s' =>
      if Ascii.eqb c sep then EmptyString :: split sep s'
      else match split sep s' with
           | w :: ws => String c w :: ws
           | [] => [String c EmptyString]
           end
  end.

(** [v.split('|')]: only a str has the method. *)
Definition split_bar (v : value) : result (list string) :=
  match v with
  | VStr s => Ok (split "|"%char s)
  | _ => Raise AttributeError
  end.

(** [sep.join(l)] *)
Definition join (sep : string) (l : list string) : string :=
  String.concat sep l.

(** [needle in hay] on strings: substring containment. *)
Fixpoint contains (needle hay : string) : bool :=
  String.prefix needle hay
  || match hay with
     | EmptyString => false
     | String _ hay' => contains needle hay'
     end.

(** [l[0]] *)
Definition index0 {A} (l : list A) : result A :=
  match l with
  | x :: _ => Ok x
  | [] => Raise IndexError
  end.

(** [d[k]] for a dict with string keys: any other key is simply absent. *)
Definition getitem (d : gmap string string) (k : value) : result string :=
  match k with
  | VStr s => match d !! s with
              | Some v => Ok v
              | None => Raise KeyError
              end
  | _ => Raise KeyError
  end.

(** Sequence comparison, shared by str (a sequence of characters) and
    list: the first position where the operands differ decides, and a
    proper prefix is smaller. *)
Fixpoint lex_cmp {A} (cmp : A -> A -> comparison) (l1 l2 : list A) : comparison :=
  match l1, l2 with
  | [], [] => Eq
  | [], _ :: _ => Lt
  | _ :: _, [] => Gt
  | x :: l1', y :: l2' =>
      match cmp x y with
      | Eq => lex_cmp cmp l1' l2'
      | c => c
      end
  end.

Definition str_cmp (s t : string) : comparison :=
  lex_cmp Ascii.compare (list_ascii_of_string s) (list_ascii_of_string t).

(** [s < t] on strings *)
Definition str_lt (s t : string) : bool :=
  match str_cmp s t with Lt => true | _ => false end.

(** [l1 < l2] on lists of strings *)
Definition list_lt (l1 l2 : list string) : bool :=
  match lex_cmp str_cmp l1 l2 with Lt => true | _ => false end.

(** [False < True] *)
Definition bool_lt (a b : bool) : bool := negb a && b.

(** [sorted(l, key=key, reverse=reverse)].  The builtin is a stable sort
    that only ever asks [<] of two keys, and [reverse=True] keeps the
    original order of elements with equal keys.  A stable sort has one
    possible answer, so it is modelled by stable insertion: walking the
    input from the right, each element is placed in front of the part
    already sorted and moves past exactly the elements that must
    strictly precede it. *)
Section Sorted.
Context {A K : Type} (lt : K -> K -> bool) (key : A -> K) (reverse : bool).

Definition precedes (y x : A) : bool :=
  if reverse then lt (key x) (key y) else lt (key y) (key x).

Fixpoint insert (x : A) (l : list A) : list A :=
  match l with
  | [] => [x]
  | y :: l' => if precedes y x then y :: insert x l' else x :: y :: l'
  end.

Definition sorted (l : list A) : list A := foldr insert [] l.
End Sorted.

(** [[f(x) for x in l]] where [f] may raise. *)
Fixpoint map_raise {A B} (f : A -> result B) (l : list A) : result (list B) :=
  match l with
  | [] => Ok []
  | x :: l' => y ← f x; ys ← map_raise f l'; Ok (y :: ys)
  end.

(** [[x for x in l if f(x)]] where [f] may raise. *)
Fixpoint filter_raise {A} (f : A -> result bool) (l : list A) : result (list A) :=
  match l with
  | [] => Ok []
  | x :: l' => b ← f x; ys ← filter_raise f l'; Ok (if (b : bool) then x :: ys else ys)
  end.

End Py.

(** ** Flag Set *)

Module Flags.

Definition NOFORWARD : Z := Z.shiftl 1 0.
Definition OBSOLETE : Z := Z.shiftl 1 1.
Definition DEPRECATED : Z := Z.shiftl 1 2.
Definition MGR : Z := Z.shiftl 1 3.
Definition POLL : Z := Z.shiftl 1 4.
Definition HIDDEN : Z := Z.shiftl 1 5.

(** The dict literal, in insertion order (the order [keys()] yields). *)
Definition VALS : list (Z * string) :=
  [ (NOFORWARD, "no_forward");
    (OBSOLETE, "obsolete");
    (DEPRECATED, "deprecated");
    (MGR, "mgr");
    (POLL, "poll");
    (HIDDEN, "hidden") ]%string.

Record t : Type := Build { fs : Py.value }.

(** The set comprehension of [__str__]:
    [{Flags.VALS[k] for k in keys if self.fs & k == k}]. *)
Fixpoint names (fs : Py.value) (items : list (Z * string)) : Py.result (gset string) :=
  match items with
  | [] => Py.Ok ∅
  | (k, name) :: items' =>
      x ← Py.band fs k;
      es ← names fs items';
      Py.Ok (if x =? k then {[ name ]} ∪ es else es)
  end.

Definition es (self : t) : Py.result (gset string) := names (fs self) VALS.

(** [__str__] *)
Definition str (self : t) : Py.result string :=
  es ← es self;
  Py.Ok (Py.join ", " (Py.sorted Py.str_lt id false (elements es))).

(** [__contains__] *)
Definition contains (self : t) (other : string) : Py.result bool :=
  s ← str self;
  Py.Ok (Py.contains other s).

(** [__bool__] *)
Definition bool (self : t) : Py.result Datatypes.bool :=
  s ← str self;
  Py.Ok (negb (s =? EmptyString)%string).

End Flags.

(** ** Parameter Model *)

Module CmdParam.

(** The class attribute [t]: type tag to Python type name. *)
Definition t : gmap string string :=
  list_to_map
    [ ("CephInt", "int");
      ("CephString", "str");
      ("CephChoices", "str");
      ("CephPgid", "str");
      ("CephOsdName", "str");
      ("CephPoolname", "str");
      ("CephObjectname", "str");
      ("CephUUID", "str");
      ("CephEntityAddr", "str");
      ("CephIPAddr", "str");
      ("CephName", "str");
      ("CephBool", "bool");
      ("CephFloat", "float");
      ("CephFilepath", "str") ]%string.

Definition bash_example : gmap string string :=
  list_to_map
    [ ("CephInt", "1");
      ("CephString", "string");
      ("CephChoices", "choice");
      ("CephPgid", "0");
      ("CephOsdName", "osd.0");
      ("CephPoolname", "poolname");
      ("CephObjectname", "objectname");
      ("CephUUID", "uuid");
      ("CephEntityAddr", "entityaddr");
      ("CephIPAddr", "0.0.0.0");
      ("CephName", "name");
      ("CephBool", "true");
      ("CephFloat", "0.0");
      ("CephFilepath", "/path/to/file") ]%string.

(** One parameter descriptor of the manifest, as the keyword arguments
    unpacked into [CmdParam]: [type] and [name] are positional, the
    others are [None] when the key is absent. *)
Record kwargs : Type := Kwargs {
  kw_type : Py.value;
  kw_name : Py.value;
  kw_who : option Py.value;
  kw_n : option Py.value;
  kw_req : option Py.value;
  kw_range : option Py.value;
  kw_strings : option Py.value;
  kw_goodchars : option Py.value
}.

Record param : Type := Param {
  type : Py.value;
  name : Py.value;
  who : Py.value;
  n : bool;
  req : bool;
  range : list string;
  strings : list string;
  goodchars : Py.value
}.

(** [v.split('|') if v else []] *)
Definition split_if (v : Py.value) : Py.result (list string) :=
  if Py.truthy v then Py.split_bar v else Py.Ok [].

(** [__init__]: the defaults are [who=None, n=None, req=True, range=None,
    strings=None, goodchars=None]; the assertion comes last. *)
Definition init (kw : kwargs) : Py.result param :=
  let who := default Py.VNone (kw_who kw) in
  let n := default Py.VNone (kw_n kw) in
  let req := default (Py.VBool true) (kw_req kw) in
  let range := default Py.VNone (kw_range kw) in
  let strings := default Py.VNone (kw_strings kw) in
  let goodchars := default Py.VNone (kw_goodchars kw) in
  range' ← split_if range;
  strings' ← split_if strings;
  if Py.equal who Py.VNone then
    Py.Ok {| type := kw_type kw;
             name := kw_name kw;
             who := who;
             n := Py.equal n (Py.VStr "N");
             req := Py.not_equal req (Py.VStr "false");
             range := range';
             strings := strings';
             goodchars := goodchars |}
  else Py.Raise Py.AssertionError.

(** A list is true when it is not empty. *)
Definition nonempty {A} (l : list A) : bool :=
  match l with [] => false | _ :: _ => true end.

(** [help]: the fragments are appended in this order; only the first
    one can raise. *)
Definition help (self : param) : Py.result string :=
  typ ← (if Py.not_equal (type self) (Py.VStr "CephString")
         then s ← Py.add_lit (type self) " "; Py.Ok [s]
         else Py.Ok []);
  let rng := if nonempty (range self)
             then ["range= ``" +:+ Py.join ".." (range self) +:+ "`` "]
             else [] in
  let strs := if nonempty (strings self)
              then ["strings=(" +:+ Py.join " " (strings self) +:+ ") "]
              else [] in
  let good := if Py.truthy (goodchars self)
              then ["goodchars= ``" +:+ Py.str (goodchars self) +:+ "`` "]
              else [] in
  let rep := if n self then ["(can be repeated)"%string] else [] in
  let advanced := typ ++ rng ++ strs ++ good ++ rep in
  let advanced := if nonempty advanced then advanced else ["(string)"%string] in
  Py.Ok (Py.join " " advanced).

Definition mk_example_value (self : param) : Py.result string :=
  if Py.equal (type self) (Py.VStr "CephChoices") && nonempty (strings self) then
    Py.index0 (strings self)
  else if nonempty (range self) then
    Py.index0 (range self)
  else
    Py.getitem bash_example (type self).

Definition mk_bash_example (self : param) (simple : bool) : Py.result string :=
  val ← mk_example_value self;
  if Py.equal (type self) (Py.VStr "CephBool") then
    Py.str_add "--" (name self)
  else if simple then
    if Py.equal (type self) (Py.VStr "CephChoices") && nonempty (strings self) then
      Py.Ok val
    else if Py.equal (type self) (Py.VStr "CephString")
            && Py.not_equal (name self) (Py.VStr "who") then
      Py.str_add "my_" (name self)
    else
      Py.getitem bash_example (type self)
  else
    Py.Ok ("--" +:+ Py.str (name self) +:+ "=" +:+ val).

End CmdParam.

(** ** Command Model *)

Module CmdCommand.

(** An element of a raw signature: a literal token or a parameter
    descriptor. *)
Inductive sig_item : Type :=
| Lit (s : string)
| Desc (d : CmdParam.kwargs).

(** One manifest entry, as the keyword arguments unpacked into
    [CmdCommand]. *)
Record kwargs : Type := Kwargs {
  kw_sig : list sig_item;
  kw_desc : Py.value;
  kw_module : option Py.value;
  kw_perm : option Py.value;
  kw_flags : option Py.value;
  kw_poll : option Py.value
}.

Record command : Type := Command {
  sig : list string;
  params : list CmdParam.param;
  help : Py.value;
  module : Py.value;
  perm : Py.value;
  flags : Flags.t;
  needs_overload : bool
}.

(** [[s for s in sig if isinstance(s, str)]] *)
Fixpoint literals (sig : list sig_item) : list string :=
  match sig with
  | [] => []
  | Lit s :: sig' => s :: literals sig'
  | Desc _ :: sig' => literals sig'
  end.

(** [[s for s in sig if not isinstance(s, str)]] *)
Fixpoint descriptors (sig : list sig_item) : list CmdParam.kwargs :=
  match sig with
  | [] => []
  | Lit _ :: sig' => descriptors sig'
  | Desc d :: sig' => d :: descriptors sig'
  end.

(** [__init__]: the defaults are [module=None, perm=None, flags=0,
    poll=None]; [poll] is accepted and dropped. *)
Definition init (kw : kwargs) : Py.result command :=
  ps ← Py.map_raise CmdParam.init (descriptors (kw_sig kw));
  Py.Ok {| sig := literals (kw_sig kw);
           params := Py.sorted Py.bool_lt CmdParam.req true ps;
           help := kw_desc kw;
           module := default Py.VNone (kw_module kw);
           perm := default Py.VNone (kw_perm kw);
           flags := Flags.Build (default (Py.VInt 0) (kw_flags kw));
           needs_overload := false |}.

Definition prefix (self : command) : string :=
  Py.join " " (sig self).

Definition is_reasonably_simple (self : command) : bool :=
  if (3 <? length (params self))%nat then false
  else if existsb CmdParam.n (params self) then false
  else true.

Definition mk_bash_example (self : command) : Py.result string :=
  let simple := is_reasonably_simple self in
  exs ← Py.map_raise (fun p => CmdParam.mk_bash_example p simple) (params self);
  Py.Ok (Py.join " " (["ceph"; prefix self]%string ++ exs)).

End CmdCommand.

(** ** Selection and ordering pipeline *)

Section Pipeline.

(** [Template(tpl).render(commands=...)]: the template engine is a
    library, so the rendering of a command sequence is left abstract. *)
Variable render : list CmdCommand.command -> Py.result string.

(** The first three statements of [mk_sigs]: the sequence handed to the
    template. *)
Definition selected (all : list CmdCommand.kwargs) : Py.result (list CmdCommand.command) :=
  sigs ← Py.map_raise CmdCommand.init all;
  sigs ← Py.filter_raise
           (fun s => c ← Flags.contains (CmdCommand.flags s) "hidden"; Py.Ok (negb c))
           sigs;
  Py.Ok (Py.sorted Py.list_lt CmdCommand.sig false sigs).

(** [mk_sigs]: the text it prints. *)
Definition mk_sigs (all : list CmdCommand.kwargs) : Py.result string :=
  sigs ← selected all;
  render sigs.

End Pipeline.

(** ** Vocabulary of the properties *)

(** A boolean [<] is a strict total order on its keys when it comes from
    a three-way comparison with the four properties above. *)
Record strict_total {K : Type} (lt : K -> K -> bool) : Prop := {
  st_irrefl : forall x, lt x x = false;
  st_asym : forall x y, lt x y = true -> lt y x = false;
  st_trans : forall x y z, lt x y = true -> lt y z = true -> lt x z = true;
  st_total : forall x y, lt x y = false -> lt y x = false -> x = y
}.

(** [bit_set m (k, name)]: the bit value [k] is fully contained in the
    mask [m]. *)
Definition bit_set (m : Z) (kn : Z * string) : bool :=
  Z.land m kn.1 =? kn.1.

(** The enumeration of [Flags.VALS] in alphabetical order of the names. *)
Definition canonical : list (Z * string) :=
  Py.sorted Py.str_lt snd false Flags.VALS.

(** [raw_hidden kw]: the [flags] field of a manifest entry (0 when
    absent) has the hidden bit set. *)
Definition raw_hidden (kw : CmdCommand.kwargs) : bool :=
  match Py.band (default (Py.VInt 0) (CmdCommand.kw_flags kw)) Flags.HIDDEN with
  | Py.Ok x => x =? Flags.HIDDEN
  | Py.Raise _ => false
  end.

(** [reports_hidden c]: the command's Flag Set answers yes to
    ['hidden' in flags]. *)
Definition reports_hidden (c : CmdCommand.command) : bool :=
  match Flags.contains (CmdCommand.flags c) "hidden" with
  | Py.Ok b => b
  | Py.Raise _ => false
  end.

(** [who_absent kw]: the descriptor has no ["who"] key, or has it with
    the value null. *)
Definition who_absent (kw : CmdParam.kwargs) : bool :=
  match CmdParam.kw_who kw with
  | None | Some Py.VNone => true
  | Some _ => false
  end.

(** [delimited o]: the field is what the input contract allows for
    [range] and [strings]: absent, a string, or another false value. *)
Definition delimited (o : option Py.value) : bool :=
  match o with
  | None | Some (Py.VStr _) => true
  | Some v => negb (Py.truthy v)
  end.

(** The part of [s] in front of its first [sep]. *)
Fixpoint until (sep : ascii) (s : string) : string :=
  match s with
  | EmptyString => EmptyString
  | String c s' => if Ascii.eqb c sep then EmptyString else String c (until sep s')
  end.

(** The first entry of a [|]-delimited field, when the field holds a
    non-empty string. *)
Definition first_entry (o : option Py.value) : option string :=
  match o with
  | Some (Py.VStr s) => if (s =? EmptyString)%string then None else Some (until "|"%char s)
  | _ => None
  end.

(** [has_space s]: the text holds a space character. *)
Fixpoint has_space (s : string) : bool :=
  match s with
  | EmptyString => false
  | String c s' => Ascii.eqb c " "%char || has_space s'
  end.

(** [numeric_flags kw]: the [flags] field of the entry (0 when absent)
    is an int or a bool, the operands [&] accepts. *)
Definition numeric_flags (kw : CmdCommand.kwargs) : bool :=
  match default (Py.VInt 0) (CmdCommand.kw_flags kw) with
  | Py.VInt _ | Py.VBool _ => true
  | _ => false
  end.

(** [known_type p]: the type tag is a string and a key of the example
    table. *)
Definition known_type (p : CmdParam.param) : bool :=
  match CmdParam.type p with
  | Py.VStr ty => bool_decide (is_Some (CmdParam.bash_example !! ty))
  | _ => false
  end.

(** [named p]: the name is a string. *)
Definition named (p : CmdParam.param) : bool :=
  match CmdParam.name p with
  | Py.VStr _ => true
  | _ => false
  end.

(** Every text of the list with a space in front, concatenated. *)
Fixpoint spaced (l : list string) : string :=
  match l with
  | [] => EmptyString
  | e :: l' => " " +:+ e +:+ spaced l'
  end.

(** ** Sample manifest data *)

Module Sample.

(** [{"type": ty, "name": nm}] and nothing else. *)
Definition plain (ty nm : string) : CmdParam.kwargs :=
  CmdParam.Kwargs (Py.VStr ty) (Py.VStr nm) None None None None None None.

(** [{"type": ty, "name": nm, "req": r}] *)
Definition with_req (ty nm : string) (r : Py.value) : CmdParam.kwargs :=
  CmdParam.Kwargs (Py.VStr ty) (Py.VStr nm) None None (Some r) None None None.

(** [{"type": "CephChoices", "name": "format", "strings": "json|plain"}] *)
Definition format : CmdParam.kwargs :=
  CmdParam.Kwargs (Py.VStr "CephChoices") (Py.VStr "format")
    None None None None (Some (Py.VStr "json|plain")) None.

(** A command whose signature interleaves optional and required
    parameters: [osd pool set <pool> [<var>] <val> [<force>]] with
    [var] and [force] marked [req: "false"]. *)
Definition pool_set : CmdCommand.kwargs :=
  CmdCommand.Kwargs
    [ CmdCommand.Lit "osd"; CmdCommand.Lit "pool"; CmdCommand.Lit "set";
      CmdCommand.Desc (with_req "CephString" "var" (Py.VStr "false"));
      CmdCommand.Desc (plain "CephPoolname" "pool");
      CmdCommand.Desc (with_req "CephBool" "force" (Py.VStr "false"));
      CmdCommand.Desc (with_req "CephString" "val" (Py.VStr "true")) ]
    (Py.VStr "set pool parameter") (Some (Py.VStr "osd")) (Some (Py.VStr "rw"))
    None None.

(** An entry with literal tokens only, an empty description and the
    flags mask [fl]. *)
Definition bare (toks : list string) (fl : Z) : CmdCommand.kwargs :=
  CmdCommand.Kwargs (map CmdCommand.Lit toks) (Py.VStr EmptyString) None None
    (Some (Py.VInt fl)) None.

(** Three entries: flags 0, deprecated|hidden (4|32) and deprecated. *)
Definition manifest : list CmdCommand.kwargs :=
  [ bare ["mon"; "compact"]%string 0;
    bare ["osd"; "down"]%string 36;
    bare ["auth"; "add"]%string 4 ].

(** The same three entries in another order. *)
Definition manifest' : list CmdCommand.kwargs :=
  [ bare ["auth"; "add"]%string 4;
    bare ["mon"; "compact"]%string 0;
    bare ["osd"; "down"]%string 36 ].

(** [{"type": "CephInt", "name": "size", "range": "1|10", "n": "N"}] *)
Definition size : CmdParam.kwargs :=
  CmdParam.Kwargs (Py.VStr "CephInt") (Py.VStr "size")
    None (Some (Py.VStr "N")) None (Some (Py.VStr "1|10")) None None.

(** Two entries, the second with [flags: null]. *)
Definition null_flags : list CmdCommand.kwargs :=
  [ bare ["mon"; "compact"]%string 0;
    CmdCommand.Kwargs [CmdCommand.Lit "osd"] (Py.VStr "d") None None
      (Some Py.VNone) None ].

(** A descriptor with a type tag the example table does not have. *)
Definition odd : CmdParam.kwargs := plain "CephTime" "when".

End Sample.

(** * Properties *)

(** ** The result monad *)

Lemma bind_Ok_inv {A B} (m : Py.result A) (f : A -> Py.result B) (b : B) :
  m ≫= f = Py.Ok b -> exists a, m = Py.Ok a /\ f a = Py.Ok b.
Proof.
  destruct m as [a|e]; simpl; intros H.
  - exists a. split; [reflexivity | exact H].
  - discriminate H.
Qed.

Lemma bind_Ok {A B} (a : A) (f : A -> Py.result B) : Py.Ok a ≫= f = f a.
Proof. reflexivity. Qed.

Ltac inv_bind H :=
  let a := fresh "a" in
  let Ha := fresh "Ha" in
  apply bind_Ok_inv in H; destruct H as (a & Ha & H).

(** ** Sequence comparison is a total order *)

Section LexCmp.
Context {A : Type} (cmp : A -> A -> comparison).
Hypothesis cmp_eq : forall x y, cmp x y = Eq -> x = y.
Hypothesis cmp_refl : forall x, cmp x x = Eq.
Hypothesis cmp_antisym : forall x y, cmp x y = CompOpp (cmp y x).
Hypothesis cmp_trans : forall x y z, cmp x y = Lt -> cmp y z = Lt -> cmp x z = Lt.

Lemma lex_cmp_eq l1 l2 : Py.lex_cmp cmp l1 l2 = Eq -> l1 = l2.
Proof.
  revert l2. induction l1 as [|x l1 IH]; intros [|y l2]; simpl; try discriminate.
  - reflexivity.
  - destruct (cmp x y) eqn:E; try discriminate.
    intros H. apply cmp_eq in E. apply IH in H. congruence.
Qed.

Lemma lex_cmp_refl l : Py.lex_cmp cmp l l = Eq.
Proof.
  induction l as [|x l IH]; simpl; [reflexivity|].
  rewrite cmp_refl. exact IH.
Qed.

Lemma lex_cmp_antisym l1 l2 :
  Py.lex_cmp cmp l1 l2 = CompOpp (Py.lex_cmp cmp l2 l1).
Proof.
  revert l2. induction l1 as [|x l1 IH]; intros [|y l2]; simpl; try reflexivity.
  rewrite (cmp_antisym x y). destruct (cmp y x); simpl; auto.
Qed.

Lemma lex_cmp_trans l1 l2 l3 :
  Py.lex_cmp cmp l1 l2 = Lt -> Py.lex_cmp cmp l2 l3 = Lt ->
  Py.lex_cmp cmp l1 l3 = Lt.
Proof.
  revert l2 l3.
  induction l1 as [|x l1 IH]; intros [|y l2] [|z l3]; simpl;
    try discriminate; try reflexivity.
  destruct (cmp x y) eqn:Exy; try discriminate;
    destruct (cmp y z) eqn:Eyz; try discriminate; intros H1 H2.
  - apply cmp_eq in Exy. subst y. rewrite Eyz. eauto.
  - apply cmp_eq in Exy. subst y. rewrite Eyz. reflexivity.
  - apply cmp_eq in Eyz. subst z. rewrite Exy. reflexivity.
  - rewrite (cmp_trans x y z Exy Eyz). reflexivity.
Qed.
End LexCmp.

Lemma ascii_compare_refl (a : ascii) : Ascii.compare a a = Eq.
Proof. unfold Ascii.compare. apply N.compare_refl. Qed.

Lemma ascii_compare_trans (a b c : ascii) :
  Ascii.compare a b = Lt -> Ascii.compare b c = Lt -> Ascii.compare a c = Lt.
Proof.
  unfold Ascii.compare. rewrite !N.compare_lt_iff. apply N.lt_trans.
Qed.

Lemma list_ascii_of_string_inj (s t : string) :
  list_ascii_of_string s = list_ascii_of_string t -> s = t.
Proof.
  intros H.
  rewrite <- (string_of_list_ascii_of_string s), <- (string_of_list_ascii_of_string t).
  congruence.
Qed.

Lemma str_cmp_eq (s t : string) : Py.str_cmp s t = Eq -> s = t.
Proof.
  intros H. apply list_ascii_of_string_inj.
  apply (lex_cmp_eq Ascii.compare Ascii.compare_eq_iff). exact H.
Qed.

Lemma str_cmp_refl (s : string) : Py.str_cmp s s = Eq.
Proof. apply lex_cmp_refl, ascii_compare_refl. Qed.

Lemma str_cmp_antisym (s t : string) : Py.str_cmp s t = CompOpp (Py.str_cmp t s).
Proof. apply lex_cmp_antisym, Ascii.compare_antisym. Qed.

Lemma str_cmp_trans (s t u : string) :
  Py.str_cmp s t = Lt -> Py.str_cmp t u = Lt -> Py.str_cmp s u = Lt.
Proof.
  apply (lex_cmp_trans Ascii.compare Ascii.compare_eq_iff ascii_compare_trans).
Qed.

Lemma strict_total_of_cmp {K : Type} (cmp : K -> K -> comparison) :
  (forall x y, cmp x y = Eq -> x = y) ->
  (forall x, cmp x x = Eq) ->
  (forall x y, cmp x y = CompOpp (cmp y x)) ->
  (forall x y z, cmp x y = Lt -> cmp y z = Lt -> cmp x z = Lt) ->
  strict_total (fun x y => match cmp x y with Lt => true | _ => false end).
Proof.
  intros Heq Hrefl Hanti Htrans. split.
  - intros x. rewrite Hrefl. reflexivity.
  - intros x y. rewrite (Hanti y x). destruct (cmp x y); simpl; congruence.
  - intros x y z.
    destruct (cmp x y) eqn:E1; try discriminate.
    destruct (cmp y z) eqn:E2; try discriminate.
    rewrite (Htrans x y z E1 E2). reflexivity.
  - intros x y. rewrite (Hanti y x).
    destruct (cmp x y) eqn:E; simpl; try discriminate.
    intros _ _. apply Heq, E.
Qed.

Lemma str_lt_strict_total : strict_total Py.str_lt.
Proof.
  apply (strict_total_of_cmp Py.str_cmp).
  - exact str_cmp_eq.
  - exact str_cmp_refl.
  - exact str_cmp_antisym.
  - exact str_cmp_trans.
Qed.

Lemma list_lt_strict_total : strict_total Py.list_lt.
Proof.
  apply (strict_total_of_cmp (Py.lex_cmp Py.str_cmp)).
  - apply lex_cmp_eq, str_cmp_eq.
  - apply lex_cmp_refl, str_cmp_refl.
  - apply lex_cmp_antisym, str_cmp_antisym.
  - apply lex_cmp_trans; [exact str_cmp_eq | exact str_cmp_trans].
Qed.

Lemma bool_lt_strict_total : strict_total Py.bool_lt.
Proof.
  split.
  - intros []; reflexivity.
  - intros [] []; cbv; congruence.
  - intros [] [] []; cbv; congruence.
  - intros [] []; cbv; congruence.
Qed.

(** [x <= z] as "not [z < x]": transitivity of the non-strict order. *)
Lemma strict_total_le_trans {K} (lt : K -> K -> bool) (x y z : K) :
  strict_total lt -> lt y x = false -> lt z y = false -> lt z x = false.
Proof.
  intros H Hyx Hzy.
  destruct (lt z x) eqn:Hzx; [|reflexivity].
  destruct (lt x y) eqn:Hxy.
  - rewrite (st_trans lt H z x y Hzx Hxy) in Hzy. discriminate.
  - assert (x = y) by (apply (st_total lt H); assumption). subst y. congruence.
Qed.

(** ** The model of [sorted] is a stable sort *)

Section SortedFacts.
Context {A K : Type} (lt : K -> K -> bool) (key : A -> K) (reverse : bool).
Hypothesis Hlt : strict_total lt.

Lemma precedes_asym (y x : A) :
  Py.precedes lt key reverse y x = true -> Py.precedes lt key reverse x y = false.
Proof. unfold Py.precedes. destruct reverse; apply (st_asym lt Hlt). Qed.

Lemma precedes_chain (x y z : A) :
  Py.precedes lt key reverse y x = false ->
  Py.precedes lt key reverse z y = false ->
  Py.precedes lt key reverse z x = false.
Proof.
  unfold Py.precedes. destruct reverse; intros H1 H2.
  - exact (strict_total_le_trans lt _ _ _ Hlt H2 H1).
  - exact (strict_total_le_trans lt _ _ _ Hlt H1 H2).
Qed.

Lemma insert_Permutation (x : A) (l : list A) :
  Permutation (Py.insert lt key reverse x l) (x :: l).
Proof.
  induction l as [|y l IH]; simpl; [reflexivity|].
  destruct (Py.precedes lt key reverse y x); [|reflexivity].
  rewrite IH. apply perm_swap.
Qed.

Lemma sorted_Permutation (l : list A) :
  Permutation (Py.sorted lt key reverse l) l.
Proof.
  induction l as [|x l IH]; simpl; [reflexivity|].
  unfold Py.sorted in *. simpl.
  rewrite insert_Permutation. constructor. exact IH.
Qed.

Lemma insert_StronglySorted (x : A) (l : list A) :
  StronglySorted (fun a b => Py.precedes lt key reverse b a = false) l ->
  StronglySorted (fun a b => Py.precedes lt key reverse b a = false)
    (Py.insert lt key reverse x l).
Proof.
  induction 1 as [|y l Hs IH Hy]; simpl.
  - constructor; constructor.
  - destruct (Py.precedes lt key reverse y x) eqn:E.
    + constructor; [exact IH|].
      rewrite Forall_forall. intros z Hz.
      rewrite insert_Permutation in Hz.
      apply elem_of_cons in Hz as [->|Hz].
      * apply precedes_asym, E.
      * rewrite Forall_forall in Hy. apply Hy, Hz.
    + constructor; [constructor; assumption|].
      constructor; [exact E|].
      rewrite Forall_forall in *. intros z Hz.
      apply (precedes_chain x y z); [exact E | apply Hy, Hz].
Qed.

Lemma sorted_StronglySorted (l : list A) :
  StronglySorted (fun a b => Py.precedes lt key reverse b a = false)
    (Py.sorted lt key reverse l).
Proof.
  induction l as [|x l IH]; [constructor|].
  apply insert_StronglySorted, IH.
Qed.



End SortedFacts.

(** ** Sorting on a boolean key, largest first *)

Section SortByFlag.
Context {A : Type} (key : A -> bool).

Lemma Forall_filter_key (b : bool) (l : list A) :
  Forall (fun a => key a = b) (List.filter (fun a => Bool.eqb (key a) b) l).
Proof.
  induction l as [|x l IH]; simpl; [constructor|].
  destruct (Bool.eqb (key x) b) eqn:E; [|exact IH].
  constructor; [apply eqb_prop, E | exact IH].
Qed.

Lemma insert_flagged (x : A) (l : list A) :
  key x = true -> Py.insert Py.bool_lt key true x l = x :: l.
Proof.
  intros Hx. destruct l as [|y l]; simpl; [reflexivity|].
  rewrite Hx. reflexivity.
Qed.

Lemma insert_unflagged (x : A) (l1 l2 : list A) :
  key x = false ->
  Forall (fun a => key a = true) l1 ->
  Forall (fun a => key a = false) l2 ->
  Py.insert Py.bool_lt key true x (l1 ++ l2) = l1 ++ x :: l2.
Proof.
  intros Hx H1 H2. induction H1 as [|y l1 Hy _ IH]; simpl.
  - destruct H2 as [|y l2 Hy _]; simpl; [reflexivity|].
    rewrite Hx, Hy. reflexivity.
  - rewrite Hx, Hy, IH. reflexivity.
Qed.

Lemma sorted_by_flag (l : list A) :
  Py.sorted Py.bool_lt key true l
  = List.filter (fun a => Bool.eqb (key a) true) l
    ++ List.filter (fun a => Bool.eqb (key a) false) l.
Proof.
  induction l as [|x l IH]; [reflexivity|].
  change (Py.sorted Py.bool_lt key true (x :: l))
    with (Py.insert Py.bool_lt key true x (Py.sorted Py.bool_lt key true l)).
  rewrite IH. simpl. destruct (key x) eqn:Hx; simpl.
  - apply insert_flagged, Hx.
  - apply insert_unflagged; [exact Hx | apply Forall_filter_key ..].
Qed.

End SortByFlag.

(** ** Command construction *)

Lemma init_command_inv (kw : CmdCommand.kwargs) (c : CmdCommand.command) :
  CmdCommand.init kw = Py.Ok c ->
  exists ps,
    Py.map_raise CmdParam.init (CmdCommand.descriptors (CmdCommand.kw_sig kw)) = Py.Ok ps /\
    CmdCommand.sig c = CmdCommand.literals (CmdCommand.kw_sig kw) /\
    CmdCommand.params c = Py.sorted Py.bool_lt CmdParam.req true ps /\
    CmdCommand.flags c = Flags.Build (default (Py.VInt 0) (CmdCommand.kw_flags kw)).
Proof.
  unfold CmdCommand.init. intros H. inv_bind H.
  injection H as <-. exists a. simpl. auto.
Qed.

(** C2: for every command built from a raw signature, the stored
    parameters are the required ones followed by the optional ones, each
    group in its original signature order; so every required parameter
    stands before every optional one. *)
Theorem params_required_before_optional
    (kw : CmdCommand.kwargs) (c : CmdCommand.command) :
  CmdCommand.init kw = Py.Ok c ->
  exists ps : list CmdParam.param,
    Py.map_raise CmdParam.init (CmdCommand.descriptors (CmdCommand.kw_sig kw)) = Py.Ok ps /\
    CmdCommand.params c
      = List.filter CmdParam.req ps ++ List.filter (fun p => negb (CmdParam.req p)) ps /\
    (forall (i j : nat) (p q : CmdParam.param),
        CmdCommand.params c !! i = Some p ->
        CmdCommand.params c !! j = Some q ->
        CmdParam.req p = true -> CmdParam.req q = false -> (i < j)%nat).
Proof.
  intros H. apply init_command_inv in H as (ps & Hps & _ & Hpar & _).
  exists ps. split; [exact Hps|].
  assert (CmdCommand.params c
          = List.filter CmdParam.req ps ++ List.filter (fun p => negb (CmdParam.req p)) ps)
    as Heq.
  { rewrite Hpar, sorted_by_flag.
    f_equal; apply List.filter_ext; intros p; destruct (CmdParam.req p); reflexivity. }
  split; [exact Heq|].
  intros i j p q Hi Hj Hp Hq. rewrite Heq in Hi, Hj.
  apply lookup_app_Some in Hi as [Hi|[_ Hi]].
  - apply lookup_app_Some in Hj as [Hj|[Hj _]].
    + apply list_elem_of_lookup_2, list_elem_of_In, List.filter_In in Hj as [_ Hj].
      congruence.
    + apply lookup_lt_Some in Hi. lia.
  - apply list_elem_of_lookup_2, list_elem_of_In, List.filter_In in Hi as [_ Hi].
    rewrite Hp in Hi. discriminate.
Qed.

Lemma params_required_before_optional_witness :
  exists c ps,
    CmdCommand.init Sample.pool_set = Py.Ok c /\
    map CmdParam.name (CmdCommand.params c)
      = [Py.VStr "pool"; Py.VStr "val"; Py.VStr "var"; Py.VStr "force"] /\
    CmdCommand.params c
      = List.filter CmdParam.req ps ++ List.filter (fun p => negb (CmdParam.req p)) ps.
Proof.
  destruct (CmdCommand.init Sample.pool_set) as [c|e] eqn:E; [|vm_compute in E; discriminate E].
  destruct (params_required_before_optional Sample.pool_set c E) as (ps & _ & Hpar & _).
  exists c, ps. split; [reflexivity|]. split; [|exact Hpar].
  vm_compute in E. injection E as <-. reflexivity.
Defined.

(** ** Flag Set *)

Lemma VALS_literal :
  Flags.VALS
  = [ (1, "no_forward"); (2, "obsolete"); (4, "deprecated");
      (8, "mgr"); (16, "poll"); (32, "hidden") ]%string.
Proof. reflexivity. Qed.

Lemma canonical_literal :
  canonical
  = [ (4, "deprecated"); (32, "hidden"); (8, "mgr");
      (1, "no_forward"); (2, "obsolete"); (16, "poll") ]%string.
Proof. vm_compute. reflexivity. Qed.

Lemma names_int (m : Z) (items : list (Z * string)) :
  Flags.names (Py.VInt m) items
  = Py.Ok (list_to_set (map snd (List.filter (bit_set m) items))).
Proof.
  induction items as [|[k name] items IH]; [reflexivity|].
  simpl. rewrite IH. simpl.
  change (bit_set m (k, name)) with (Z.land m k =? k).
  destruct (Z.land m k =? k); reflexivity.
Qed.

(** Whatever subset of the enumeration is selected, sorting the set of
    selected names gives the selected part of the alphabetical
    enumeration: 64 cases, each by evaluation. *)
Ltac each_selection f :=
  rewrite ?VALS_literal, ?canonical_literal; cbn [List.filter];
  destruct (f (1, "no_forward"%string)), (f (2, "obsolete"%string)),
    (f (4, "deprecated"%string)), (f (8, "mgr"%string)),
    (f (16, "poll"%string)), (f (32, "hidden"%string)).

(** One goal per name of the enumeration. *)
Ltac each_name :=
  rewrite ?VALS_literal;
  repeat (apply List.Forall_cons; [cbv beta; cbn [fst snd]|]);
  [..|apply List.Forall_nil].

Lemma sorted_selection (f : Z * string -> bool) :
  Py.sorted Py.str_lt id false
    (elements (list_to_set (map snd (List.filter f Flags.VALS)) : gset string))
  = map snd (List.filter f canonical).
Proof. each_selection f; vm_compute; reflexivity. Qed.

Lemma str_int (m : Z) :
  Flags.str (Flags.Build (Py.VInt m))
  = Py.Ok (Py.join ", " (map snd (List.filter (bit_set m) canonical))).
Proof.
  unfold Flags.str, Flags.es. cbn [Flags.fs].
  rewrite names_int, bind_Ok, sorted_selection. reflexivity.
Qed.

Lemma contains_selection (f : Z * string -> bool) :
  Forall (fun kn => Py.contains kn.2
                      (Py.join ", " (map snd (List.filter f canonical))) = f kn)
    Flags.VALS.
Proof. each_name; each_selection f; vm_compute; reflexivity. Qed.

Lemma member_selection (f : Z * string -> bool) :
  Forall (fun kn => bool_decide
                      (kn.2 ∈ (list_to_set (map snd (List.filter f Flags.VALS)) : gset string))
                    = f kn)
    Flags.VALS.
Proof. each_name; each_selection f; vm_compute; reflexivity. Qed.

Lemma contains_int (m : Z) (other : string) :
  Flags.contains (Flags.Build (Py.VInt m)) other
  = Py.Ok (Py.contains other
             (Py.join ", " (map snd (List.filter (bit_set m) canonical)))).
Proof. unfold Flags.contains. rewrite str_int, bind_Ok. reflexivity. Qed.

Lemma bit_set_low_bits (m : Z) (kn : Z * string) :
  In kn canonical -> bit_set (Z.land m 63) kn = bit_set m kn.
Proof.
  rewrite canonical_literal. unfold bit_set. intros H.
  rewrite <- Z.land_assoc.
  repeat (destruct H as [<-|H]; [reflexivity|]). destruct H.
Qed.

(** C6: for every integer mask the rendering is the comma-separated
    (separator [", "]) list of exactly the names of the enumeration whose
    bit value is contained in the mask, in alphabetical order; bits
    outside the enumeration change nothing and no mask raises. *)
Theorem flags_str_sorted_names (m : Z) :
  Flags.str (Flags.Build (Py.VInt m))
    = Py.Ok (Py.join ", " (map snd (List.filter (bit_set m) canonical)))
  /\ canonical
     = [ (4, "deprecated"); (32, "hidden"); (8, "mgr");
         (1, "no_forward"); (2, "obsolete"); (16, "poll") ]%string
  /\ Permutation canonical Flags.VALS
  /\ StronglySorted (fun a b => Py.str_lt a b = true) (map snd canonical)
  /\ Flags.str (Flags.Build (Py.VInt (Z.land m 63)))
     = Flags.str (Flags.Build (Py.VInt m)).
Proof.
  split; [apply str_int|].
  split; [apply canonical_literal|].
  split; [apply sorted_Permutation|].
  split.
  - rewrite canonical_literal. cbn [map snd].
    repeat first [ apply SSorted_nil | apply SSorted_cons
                 | apply List.Forall_nil | apply List.Forall_cons ];
      vm_compute; reflexivity.
  - rewrite !str_int. do 3 f_equal.
    apply List.filter_ext_in. intros kn Hkn. apply bit_set_low_bits, Hkn.
Qed.

(** C10: for every integer mask and every name of the enumeration, the
    substring test on the rendered text answers exactly whether the name
    is an element of the decoded name set, which holds exactly when the
    name's bit value is contained in the mask. *)
Theorem flags_contains_is_membership (m : Z) :
  exists s : gset string,
    Flags.es (Flags.Build (Py.VInt m)) = Py.Ok s /\
    Forall (fun kn =>
              Flags.contains (Flags.Build (Py.VInt m)) kn.2
                = Py.Ok (bool_decide (kn.2 ∈ s))
              /\ bool_decide (kn.2 ∈ s) = (Z.land m kn.1 =? kn.1))
      Flags.VALS.
Proof.
  eexists. split; [apply names_int|].
  pose proof (contains_selection (bit_set m)) as Hc.
  pose proof (member_selection (bit_set m)) as Hm.
  rewrite Forall_forall in *. intros kn Hkn.
  rewrite contains_int, (Hc kn Hkn), (Hm kn Hkn). split; reflexivity.
Qed.

(** ** Selection and ordering *)

Lemma filter_raise_Ok {A} (f : A -> Py.result bool) (l fs : list A) :
  Py.filter_raise f l = Py.Ok fs ->
  Forall (fun x => exists b, f x = Py.Ok b) l /\
  fs = List.filter (fun x => match f x with Py.Ok b => b | Py.Raise _ => false end) l.
Proof.
  revert fs. induction l as [|x l IH]; simpl; intros fs H.
  - injection H as <-. split; [constructor | reflexivity].
  - inv_bind H. inv_bind H. injection H as <-.
    destruct (IH _ Ha0) as [Hall ->]. rewrite Ha. split.
    + constructor; [exists a; exact Ha | exact Hall].
    + destruct a; reflexivity.
Qed.

Lemma names_bool (b : bool) (items : list (Z * string)) :
  Flags.names (Py.VBool b) items = Flags.names (Py.VInt (Z.b2z b)) items.
Proof.
  induction items as [|[k name] items IH]; [reflexivity|].
  simpl. rewrite IH. reflexivity.
Qed.

Lemma contains_hidden_int (m : Z) :
  Flags.contains (Flags.Build (Py.VInt m)) "hidden" = Py.Ok (Z.land m 32 =? 32).
Proof.
  rewrite contains_int. f_equal.
  pose proof (contains_selection (bit_set m)) as H.
  rewrite Forall_forall in H.
  apply (H (32, "hidden"%string)). rewrite VALS_literal.
  repeat first [ apply list_elem_of_here | apply list_elem_of_further ].
Qed.

(** What the Flag Set of a constructed command answers is decided by the
    raw [flags] field. *)
Lemma contains_hidden_raw (kw : CmdCommand.kwargs) (c : CmdCommand.command) (h : bool) :
  CmdCommand.init kw = Py.Ok c ->
  Flags.contains (CmdCommand.flags c) "hidden" = Py.Ok h ->
  raw_hidden kw = h.
Proof.
  intros Hc. apply init_command_inv in Hc as (_ & _ & _ & _ & ->).
  unfold raw_hidden.
  destruct (default (Py.VInt 0) (CmdCommand.kw_flags kw)) as [|b|m|s]; simpl.
  - discriminate.
  - unfold Flags.contains, Flags.str, Flags.es. cbn [Flags.fs].
    rewrite names_bool.
    change (Flags.contains (Flags.Build (Py.VInt (Z.b2z b))) "hidden" = Py.Ok h
            -> (Z.land (Z.b2z b) Flags.HIDDEN =? Flags.HIDDEN) = h).
    rewrite contains_hidden_int. intros [= <-]. reflexivity.
  - rewrite contains_hidden_int. intros [= <-]. reflexivity.
  - discriminate.
Qed.

Lemma selected_inv (all : list CmdCommand.kwargs) (cmds : list CmdCommand.command) :
  selected all = Py.Ok cmds ->
  exists cs,
    Py.map_raise CmdCommand.init all = Py.Ok cs /\
    Forall (fun c => exists b, Flags.contains (CmdCommand.flags c) "hidden" = Py.Ok b) cs /\
    cmds = Py.sorted Py.list_lt CmdCommand.sig false
             (List.filter (fun c => negb (reports_hidden c)) cs).
Proof.
  unfold selected. intros H. inv_bind H. inv_bind H. injection H as <-.
  exists a. split; [exact Ha|].
  apply filter_raise_Ok in Ha0 as [Hall ->].
  assert (Forall (fun c => exists b,
                    Flags.contains (CmdCommand.flags c) "hidden" = Py.Ok b) a) as Hok.
  { eapply Forall_impl; [exact Hall|]. intros c [b Hb]. simpl in Hb.
    destruct (Flags.contains (CmdCommand.flags c) "hidden") as [h|e]; [|discriminate].
    exists h. reflexivity. }
  split; [exact Hok|].
  f_equal. apply List.filter_ext_in. intros c Hc.
  rewrite Forall_forall in Hok. apply list_elem_of_In in Hc.
  destruct (Hok c Hc) as [h Hh]. unfold reports_hidden. rewrite Hh. reflexivity.
Qed.

Lemma keep_filter (cs : list CmdCommand.command) :
  Forall (fun c => exists b, Flags.contains (CmdCommand.flags c) "hidden" = Py.Ok b) cs ->
  Py.filter_raise
    (fun s => c ← Flags.contains (CmdCommand.flags s) "hidden"; Py.Ok (negb c)) cs
  = Py.Ok (List.filter (fun c => negb (reports_hidden c)) cs).
Proof.
  induction 1 as [|c cs [b Hb] _ IH]; [reflexivity|].
  simpl. rewrite Hb, bind_Ok, IH, bind_Ok. unfold reports_hidden. rewrite Hb.
  reflexivity.
Qed.

Lemma selected_of_constructed
    (all : list CmdCommand.kwargs) (cs : list CmdCommand.command) :
  Py.map_raise CmdCommand.init all = Py.Ok cs ->
  Forall (fun c => exists b, Flags.contains (CmdCommand.flags c) "hidden" = Py.Ok b) cs ->
  selected all
  = Py.Ok (Py.sorted Py.list_lt CmdCommand.sig false
             (List.filter (fun c => negb (reports_hidden c)) cs)).
Proof.
  intros Hcs Hok. unfold selected.
  rewrite Hcs, bind_Ok, (keep_filter cs Hok), bind_Ok. reflexivity.
Qed.

(** Dropping the entries with the hidden bit from the manifest changes
    neither the success of the construction nor the survivors. *)
Lemma drop_hidden_entries
    (all : list CmdCommand.kwargs) (cs : list CmdCommand.command) :
  Py.map_raise CmdCommand.init all = Py.Ok cs ->
  Forall (fun c => exists b, Flags.contains (CmdCommand.flags c) "hidden" = Py.Ok b) cs ->
  exists cs',
    Py.map_raise CmdCommand.init (List.filter (fun kw => negb (raw_hidden kw)) all)
      = Py.Ok cs' /\
    Forall (fun c => exists b, Flags.contains (CmdCommand.flags c) "hidden" = Py.Ok b) cs' /\
    List.filter (fun c => negb (reports_hidden c)) cs'
      = List.filter (fun c => negb (reports_hidden c)) cs.
Proof.
  revert cs. induction all as [|kw all IH]; simpl; intros cs H Hok.
  - injection H as <-. exists []. auto.
  - inv_bind H. inv_bind H. injection H as <-.
    apply Forall_cons in Hok as [[b Hb] Hok].
    destruct (IH _ Ha0 Hok) as (cs' & Hcs' & Hok' & Heq).
    rewrite (contains_hidden_raw kw a b Ha Hb).
    assert (reports_hidden a = b) as Hr by (unfold reports_hidden; rewrite Hb; reflexivity).
    destruct b; simpl; rewrite Hr; simpl.
    + exists cs'. auto.
    + exists (a :: cs'). rewrite Ha, bind_Ok, Hcs', bind_Ok.
      split; [reflexivity|]. split.
      * apply Forall_cons. split; [exists false; exact Hb | exact Hok'].
      * simpl. rewrite Hr. simpl. f_equal. exact Heq.
Qed.

Lemma land_hidden_lor (x : Z) : Z.land (Z.lor 32 x) 32 = 32.
Proof.
  apply Z.bits_inj'. intros i _. rewrite Z.land_spec, Z.lor_spec.
  destruct (Z.testbit 32 i); [reflexivity | apply andb_false_r].
Qed.

(** C1: whatever the manifest, no command whose Flag Set reports
    ["hidden"] is in the sequence handed to the renderer: a command built
    from a mask that ORs the hidden bit with any other bits is dropped,
    and the rendered text is the one the manifest without its hidden
    entries gives. *)
Theorem hidden_commands_never_rendered
    (all : list CmdCommand.kwargs) (cmds : list CmdCommand.command) :
  selected all = Py.Ok cmds ->
  Forall (fun c => Flags.contains (CmdCommand.flags c) "hidden" = Py.Ok false) cmds
  /\ (forall c, Flags.contains (CmdCommand.flags c) "hidden" = Py.Ok true -> c ∉ cmds)
  /\ (forall kw c x,
        CmdCommand.init kw = Py.Ok c ->
        CmdCommand.kw_flags kw = Some (Py.VInt (Z.lor Flags.HIDDEN x)) ->
        c ∉ cmds)
  /\ selected (List.filter (fun kw => negb (raw_hidden kw)) all) = Py.Ok cmds
  /\ (forall render,
        mk_sigs render all = render cmds /\
        mk_sigs render (List.filter (fun kw => negb (raw_hidden kw)) all) = render cmds).
Proof.
  intros H.
  destruct (selected_inv all cmds H) as (cs & Hcs & Hok & Hcmds).
  assert (Forall (fun c => Flags.contains (CmdCommand.flags c) "hidden" = Py.Ok false) cmds)
    as Hnone.
  { rewrite Forall_forall. intros c Hc. rewrite Hcmds, sorted_Permutation in Hc.
    apply list_elem_of_In, List.filter_In in Hc as [Hc Hr]. apply list_elem_of_In in Hc.
    rewrite Forall_forall in Hok. destruct (Hok c Hc) as [b Hb].
    unfold reports_hidden in Hr. rewrite Hb in Hr. rewrite Hb.
    destruct b; [discriminate | reflexivity]. }
  assert (forall c, Flags.contains (CmdCommand.flags c) "hidden" = Py.Ok true -> c ∉ cmds)
    as Hdrop.
  { intros c Hc Hin. rewrite Forall_forall in Hnone.
    rewrite (Hnone c Hin) in Hc. discriminate. }
  assert (selected (List.filter (fun kw => negb (raw_hidden kw)) all) = Py.Ok cmds) as Hsame.
  { destruct (drop_hidden_entries all cs Hcs Hok) as (cs' & Hcs' & Hok' & Heq).
    rewrite (selected_of_constructed _ cs' Hcs' Hok'), Heq, Hcmds. reflexivity. }
  split; [exact Hnone|]. split; [exact Hdrop|]. split; [|split; [exact Hsame|]].
  - intros kw c x Hinit Hfl. apply Hdrop.
    apply init_command_inv in Hinit as (_ & _ & _ & _ & ->).
    rewrite Hfl. simpl. rewrite contains_hidden_int.
    change Flags.HIDDEN with 32. rewrite land_hidden_lor. reflexivity.
  - intros render. unfold mk_sigs. rewrite H, Hsame. split; reflexivity.
Qed.

Lemma hidden_commands_never_rendered_witness :
  exists cmds,
    selected Sample.manifest = Py.Ok cmds /\
    map CmdCommand.sig cmds = [["auth"; "add"]; ["mon"; "compact"]]%string /\
    Forall (fun c => Flags.contains (CmdCommand.flags c) "hidden" = Py.Ok false) cmds.
Proof.
  destruct (selected Sample.manifest) as [cmds|e] eqn:E; [|vm_compute in E; discriminate E].
  destruct (hidden_commands_never_rendered Sample.manifest cmds E) as (Hnone & _).
  exists cmds. split; [reflexivity|]. split; [|exact Hnone].
  vm_compute in E. injection E as <-. reflexivity.
Defined.

(** C8: the surviving commands are handed to the renderer sorted by their
    literal-token lists in lexicographic order: the sequence is a
    rearrangement of the commands that do not report ["hidden"], no
    command stands before one with a smaller signature, and this
    sequence is what the template receives. *)
Theorem selected_sorted_by_signature
    (all : list CmdCommand.kwargs) (cmds : list CmdCommand.command) :
  selected all = Py.Ok cmds ->
  exists cs,
    Py.map_raise CmdCommand.init all = Py.Ok cs
    /\ Permutation cmds (List.filter (fun c => negb (reports_hidden c)) cs)
    /\ StronglySorted
         (fun a b => Py.list_lt (CmdCommand.sig b) (CmdCommand.sig a) = false) cmds
    /\ (forall render, mk_sigs render all = render cmds).
Proof.
  intros H.
  destruct (selected_inv all cmds H) as (cs & Hcs & _ & Hcmds).
  exists cs. split; [exact Hcs|]. split; [|split].
  - rewrite Hcmds. apply sorted_Permutation.
  - rewrite Hcmds.
    apply (sorted_StronglySorted Py.list_lt CmdCommand.sig false list_lt_strict_total).
  - intros render. unfold mk_sigs. rewrite H. reflexivity.
Qed.

Lemma selected_sorted_by_signature_witness :
  exists cmds,
    selected Sample.manifest = Py.Ok cmds /\
    StronglySorted
      (fun a b => Py.list_lt (CmdCommand.sig b) (CmdCommand.sig a) = false) cmds.
Proof.
  destruct (selected Sample.manifest) as [cmds|e] eqn:E; [|vm_compute in E; discriminate E].
  destruct (selected_sorted_by_signature Sample.manifest cmds E) as (cs & _ & _ & Hs & _).
  exists cmds. split; [reflexivity | exact Hs].
Defined.

(** ** Parameter construction *)

Lemma equal_str (v : Py.value) (s : string) :
  Py.equal v (Py.VStr s) = true <-> v = Py.VStr s.
Proof.
  destruct v as [|b|z|t]; simpl; try (split; [discriminate | discriminate]).
  rewrite String.eqb_eq. split; congruence.
Qed.

Lemma equal_none (v : Py.value) : Py.equal v Py.VNone = true <-> v = Py.VNone.
Proof. destruct v; simpl; split; congruence || discriminate. Qed.

Lemma split_if_delimited (o : option Py.value) :
  delimited o = true ->
  exists l, CmdParam.split_if (default Py.VNone o) = Py.Ok l.
Proof.
  unfold CmdParam.split_if.
  destruct o as [[|b|z|s]|]; simpl; intros H; try (eexists; reflexivity).
  - rewrite negb_true_iff in H. rewrite H. eexists; reflexivity.
  - rewrite negb_true_iff in H. rewrite H. eexists; reflexivity.
  - destruct (negb (s =? EmptyString)%string); eexists; reflexivity.
Qed.

Lemma split_if_raise (v : Py.value) (e : Py.exn) :
  CmdParam.split_if v = Py.Raise e -> e = Py.AttributeError.
Proof.
  unfold CmdParam.split_if. destruct (Py.truthy v); [|discriminate].
  destruct v; simpl; congruence.
Qed.

Lemma init_param_inv (kw : CmdParam.kwargs) (p : CmdParam.param) :
  CmdParam.init kw = Py.Ok p ->
  CmdParam.type p = CmdParam.kw_type kw /\
  CmdParam.name p = CmdParam.kw_name kw /\
  CmdParam.n p = Py.equal (default Py.VNone (CmdParam.kw_n kw)) (Py.VStr "N") /\
  CmdParam.req p
    = Py.not_equal (default (Py.VBool true) (CmdParam.kw_req kw)) (Py.VStr "false") /\
  CmdParam.split_if (default Py.VNone (CmdParam.kw_range kw)) = Py.Ok (CmdParam.range p) /\
  CmdParam.split_if (default Py.VNone (CmdParam.kw_strings kw)) = Py.Ok (CmdParam.strings p) /\
  who_absent kw = true.
Proof.
  unfold CmdParam.init. intros H. inv_bind H. inv_bind H.
  destruct (Py.equal (default Py.VNone (CmdParam.kw_who kw)) Py.VNone) eqn:Hw;
    [|discriminate].
  injection H as <-. simpl. repeat split; try assumption.
  apply equal_none in Hw. unfold who_absent.
  destruct (CmdParam.kw_who kw) as [v|]; [|reflexivity].
  simpl in Hw. subst v. reflexivity.
Qed.

(** C5: [is_reasonably_simple] answers false exactly when there are more
    than three parameters or some parameter is repeatable (its [n] field
    is the string ["N"]); otherwise it answers true. *)
Theorem is_reasonably_simple_iff (c : CmdCommand.command) :
  (CmdCommand.is_reasonably_simple c = false <->
     (3 < length (CmdCommand.params c))%nat
     \/ exists p, p ∈ CmdCommand.params c /\ CmdParam.n p = true)
  /\ (CmdCommand.is_reasonably_simple c = true <->
       (length (CmdCommand.params c) <= 3)%nat
       /\ Forall (fun p => CmdParam.n p = false) (CmdCommand.params c))
  /\ (forall kw p, CmdParam.init kw = Py.Ok p ->
        (CmdParam.n p = true <-> CmdParam.kw_n kw = Some (Py.VStr "N"))).
Proof.
  unfold CmdCommand.is_reasonably_simple.
  split; [|split].
  - destruct (3 <? length (CmdCommand.params c))%nat eqn:Hlen.
    + apply Nat.ltb_lt in Hlen. split; [left; exact Hlen | reflexivity].
    + apply Nat.ltb_ge in Hlen.
      destruct (existsb CmdParam.n (CmdCommand.params c)) eqn:Hex.
      * split; [|reflexivity]. intros _. right.
        apply existsb_exists in Hex as (p & Hin & Hp).
        exists p. split; [apply list_elem_of_In, Hin | exact Hp].
      * split; [discriminate|]. intros [Hgt|(p & Hin & Hp)]; [lia|].
        assert (existsb CmdParam.n (CmdCommand.params c) = true) as Hex'.
        { apply existsb_exists. exists p. split; [apply list_elem_of_In, Hin | exact Hp]. }
        congruence.
  - destruct (3 <? length (CmdCommand.params c))%nat eqn:Hlen.
    + apply Nat.ltb_lt in Hlen. split; [discriminate | intros [Hle _]; lia].
    + apply Nat.ltb_ge in Hlen.
      destruct (existsb CmdParam.n (CmdCommand.params c)) eqn:Hex.
      * split; [discriminate|]. intros [_ Hall].
        apply existsb_exists in Hex as (p & Hin & Hp).
        rewrite Forall_forall in Hall. apply list_elem_of_In in Hin.
        rewrite (Hall p Hin) in Hp. discriminate.
      * split; [|reflexivity]. intros _. split; [exact Hlen|].
        rewrite Forall_forall. intros p Hin.
        destruct (CmdParam.n p) eqn:Hp; [|reflexivity].
        assert (existsb CmdParam.n (CmdCommand.params c) = true) as Hex'.
        { apply existsb_exists. exists p. split; [apply list_elem_of_In, Hin | exact Hp]. }
        congruence.
  - intros kw p H. apply init_param_inv in H as (_ & _ & -> & _).
    rewrite equal_str. destruct (CmdParam.kw_n kw) as [v|]; simpl.
    + split; congruence.
    + split; discriminate.
Qed.

(** C9: a constructed parameter is optional exactly when the descriptor's
    [req] field is the string ["false"]; any other value, and an absent
    field, give a required parameter. *)
Theorem req_false_string_only (kw : CmdParam.kwargs) (p : CmdParam.param) :
  CmdParam.init kw = Py.Ok p ->
  (CmdParam.req p = false <-> CmdParam.kw_req kw = Some (Py.VStr "false"))
  /\ (CmdParam.kw_req kw = None -> CmdParam.req p = true)
  /\ (forall v, CmdParam.kw_req kw = Some v -> v <> Py.VStr "false" ->
        CmdParam.req p = true).
Proof.
  intros H. apply init_param_inv in H as (_ & _ & _ & Hreq & _).
  assert (CmdParam.req p = false <-> CmdParam.kw_req kw = Some (Py.VStr "false")) as Hiff.
  { rewrite Hreq. unfold Py.not_equal. rewrite negb_false_iff, equal_str.
    destruct (CmdParam.kw_req kw) as [v|]; simpl.
    - split; congruence.
    - split; discriminate. }
  split; [exact Hiff|]. split.
  - intros Hnone. apply not_false_iff_true. intros E.
    apply Hiff in E. congruence.
  - intros v Hv Hne. apply not_false_iff_true. intros E.
    apply Hiff in E. congruence.
Qed.

Lemma req_false_string_only_witness :
  exists p,
    CmdParam.init (Sample.with_req "CephString" "var" (Py.VStr "false")) = Py.Ok p /\
    CmdParam.req p = false.
Proof.
  destruct (CmdParam.init (Sample.with_req "CephString" "var" (Py.VStr "false")))
    as [p|e] eqn:E; [|vm_compute in E; discriminate E].
  destruct (req_false_string_only _ p E) as (Hiff & _).
  exists p. split; [reflexivity|]. apply Hiff. reflexivity.
Defined.

(** C7: a descriptor whose [who] attribute is present and not null never
    constructs a parameter (the assertion raises once the delimited
    fields have been split); with [who] absent or null the assertion
    never raises, and every descriptor whose [range] and [strings] are
    as the input contract has them constructs its parameter. *)
Theorem who_must_be_absent (kw : CmdParam.kwargs) :
  (who_absent kw = false -> exists e, CmdParam.init kw = Py.Raise e)
  /\ (who_absent kw = false ->
        delimited (CmdParam.kw_range kw) = true ->
        delimited (CmdParam.kw_strings kw) = true ->
        CmdParam.init kw = Py.Raise Py.AssertionError)
  /\ (who_absent kw = true -> CmdParam.init kw <> Py.Raise Py.AssertionError)
  /\ (who_absent kw = true ->
        delimited (CmdParam.kw_range kw) = true ->
        delimited (CmdParam.kw_strings kw) = true ->
        exists p, CmdParam.init kw = Py.Ok p).
Proof.
  assert (Py.equal (default Py.VNone (CmdParam.kw_who kw)) Py.VNone = who_absent kw) as Hw.
  { unfold who_absent. destruct (CmdParam.kw_who kw) as [[| | |]|]; reflexivity. }
  split; [|split; [|split]].
  - intros Habs. destruct (CmdParam.init kw) as [p|e] eqn:E; [|exists e; reflexivity].
    apply init_param_inv in E as (_ & _ & _ & _ & _ & _ & E). congruence.
  - intros Habs Hr Hs.
    destruct (split_if_delimited _ Hr) as [lr Hlr].
    destruct (split_if_delimited _ Hs) as [ls Hls].
    unfold CmdParam.init. rewrite Hlr, bind_Ok, Hls, bind_Ok, Hw, Habs. reflexivity.
  - intros Habs E. unfold CmdParam.init in E. rewrite Hw, Habs in E.
    destruct (CmdParam.split_if (default Py.VNone (CmdParam.kw_range kw)))
      as [lr|e1] eqn:E1; simpl in E.
    + destruct (CmdParam.split_if (default Py.VNone (CmdParam.kw_strings kw)))
        as [ls|e2] eqn:E2; simpl in E; [discriminate|].
      apply split_if_raise in E2. congruence.
    + apply split_if_raise in E1. congruence.
  - intros Habs Hr Hs.
    destruct (split_if_delimited _ Hr) as [lr Hlr].
    destruct (split_if_delimited _ Hs) as [ls Hls].
    unfold CmdParam.init. rewrite Hlr, bind_Ok, Hls, bind_Ok, Hw, Habs.
    eexists. reflexivity.
Qed.

(** ** Example values *)

Lemma split_head (sep : ascii) (s : string) :
  exists rest, Py.split sep s = until sep s :: rest.
Proof.
  induction s as [|c s [rest IH]]; simpl.
  - exists []. reflexivity.
  - destruct (Ascii.eqb c sep).
    + eexists. reflexivity.
    + rewrite IH. eexists. reflexivity.
Qed.

Lemma split_if_first (o : option Py.value) (l : list string) :
  CmdParam.split_if (default Py.VNone o) = Py.Ok l ->
  match first_entry o with
  | Some v => exists rest, l = v :: rest
  | None => l = []
  end.
Proof.
  unfold CmdParam.split_if.
  destruct o as [[|b|z|s]|]; simpl.
  - congruence.
  - destruct b; [discriminate | congruence].
  - destruct (negb (z =? 0)); [discriminate | congruence].
  - destruct (s =? EmptyString)%string; simpl; [congruence|].
    destruct (split_head "|"%char s) as [rest ->].
    intros [= <-]. exists rest. reflexivity.
  - congruence.
Qed.

Lemma mk_example_value_raw (kw : CmdParam.kwargs) (p : CmdParam.param) :
  CmdParam.init kw = Py.Ok p ->
  CmdParam.mk_example_value p =
    match (if Py.equal (CmdParam.kw_type kw) (Py.VStr "CephChoices")
           then first_entry (CmdParam.kw_strings kw) else None) with
    | Some v => Py.Ok v
    | None =>
        match first_entry (CmdParam.kw_range kw) with
        | Some r => Py.Ok r
        | None => Py.getitem CmdParam.bash_example (CmdParam.kw_type kw)
        end
    end.
Proof.
  intros H. apply init_param_inv in H as (Hty & _ & _ & _ & Hr & Hs & _).
  apply split_if_first in Hr, Hs.
  unfold CmdParam.mk_example_value. rewrite Hty.
  assert (match first_entry (CmdParam.kw_range kw) with
          | Some r => Py.Ok r
          | None => Py.getitem CmdParam.bash_example (CmdParam.kw_type kw)
          end
          = if CmdParam.nonempty (CmdParam.range p) then Py.index0 (CmdParam.range p)
            else Py.getitem CmdParam.bash_example (CmdParam.kw_type kw)) as ->.
  { destruct (first_entry (CmdParam.kw_range kw)) as [r|].
    - destruct Hr as [rest ->]. reflexivity.
    - rewrite Hr. reflexivity. }
  destruct (Py.equal (CmdParam.kw_type kw) (Py.VStr "CephChoices")); [|reflexivity].
  destruct (first_entry (CmdParam.kw_strings kw)) as [v|].
  - destruct Hs as [rest ->]. reflexivity.
  - rewrite Hs. reflexivity.
Qed.

(** C3: the example value of a constructed parameter is the first entry
    of [strings] when the type is [CephChoices] and [strings] is a
    non-empty string; otherwise the first entry of [range] when [range]
    is a non-empty string; otherwise the literal the fixed table holds
    for the type tag ([KeyError] for a tag outside the table). *)
Theorem mk_example_value_cases (kw : CmdParam.kwargs) (p : CmdParam.param) :
  CmdParam.init kw = Py.Ok p ->
  CmdParam.mk_example_value p =
    match (if Py.equal (CmdParam.kw_type kw) (Py.VStr "CephChoices")
           then first_entry (CmdParam.kw_strings kw) else None) with
    | Some v => Py.Ok v
    | None =>
        match first_entry (CmdParam.kw_range kw) with
        | Some r => Py.Ok r
        | None => Py.getitem CmdParam.bash_example (CmdParam.kw_type kw)
        end
    end
  /\ map (fun ty => Py.getitem CmdParam.bash_example (Py.VStr ty))
       [ "CephInt"; "CephString"; "CephChoices"; "CephPgid"; "CephOsdName";
         "CephPoolname"; "CephObjectname"; "CephUUID"; "CephEntityAddr";
         "CephIPAddr"; "CephName"; "CephBool"; "CephFloat"; "CephFilepath" ]%string
     = map Py.Ok
         [ "1"; "string"; "choice"; "0"; "osd.0"; "poolname"; "objectname";
           "uuid"; "entityaddr"; "0.0.0.0"; "name"; "true"; "0.0";
           "/path/to/file" ]%string.
Proof.
  intros H. split; [apply mk_example_value_raw, H|].
  vm_compute. reflexivity.
Qed.

Lemma mk_example_value_cases_witness :
  exists p,
    CmdParam.init Sample.format = Py.Ok p /\
    CmdParam.mk_example_value p = Py.Ok "json"%string.
Proof.
  destruct (CmdParam.init Sample.format) as [p|e] eqn:E; [|vm_compute in E; discriminate E].
  destruct (mk_example_value_cases Sample.format p E) as [Hval _].
  exists p. split; [reflexivity|]. rewrite Hval. reflexivity.
Defined.

Lemma getitem_CephBool :
  Py.getitem CmdParam.bash_example (Py.VStr "CephBool") = Py.Ok "true"%string.
Proof. vm_compute. reflexivity. Qed.

Lemma getitem_CephString :
  Py.getitem CmdParam.bash_example (Py.VStr "CephString") = Py.Ok "string"%string.
Proof. vm_compute. reflexivity. Qed.

#[local] Arguments Py.getitem : simpl never.

(** C4: for a parameter named [nm], [mk_bash_example] gives ["--nm"] for
    a [CephBool] whatever [simple] is; otherwise, when [simple], the
    first allowed value for a [CephChoices] with allowed values,
    ["my_nm"] for a [CephString] not named ["who"], and else the table
    literal of the type; when not [simple], ["--nm=v"] with [v] the
    example value.  The [format] descriptor of the spec's scenario gives
    ["json"] and ["--format=json"]. *)
Theorem mk_bash_example_cases (p : CmdParam.param) (nm : string) (simple : bool) :
  CmdParam.name p = Py.VStr nm ->
  CmdParam.mk_bash_example p simple =
    (if Py.equal (CmdParam.type p) (Py.VStr "CephBool") then
       Py.Ok ("--" +:+ nm)
     else if simple then
       match (if Py.equal (CmdParam.type p) (Py.VStr "CephChoices")
              then CmdParam.strings p else []) with
       | v :: _ => Py.Ok v
       | [] =>
           if Py.equal (CmdParam.type p) (Py.VStr "CephString")
              && negb (nm =? "who")%string
           then Py.Ok ("my_" +:+ nm)
           else Py.getitem CmdParam.bash_example (CmdParam.type p)
       end
     else
       val ← CmdParam.mk_example_value p;
       Py.Ok ("--" +:+ nm +:+ "=" +:+ val))
  /\ (q ← CmdParam.init Sample.format; CmdParam.mk_bash_example q true)
     = Py.Ok "json"%string
  /\ (q ← CmdParam.init Sample.format; CmdParam.mk_bash_example q false)
     = Py.Ok "--format=json"%string.
Proof.
  intros Hname. split; [|split; vm_compute; reflexivity].
  unfold CmdParam.mk_bash_example, CmdParam.mk_example_value. rewrite Hname.
  destruct (Py.equal (CmdParam.type p) (Py.VStr "CephBool")) eqn:Eb.
  - apply equal_str in Eb. rewrite Eb. simpl.
    destruct (CmdParam.range p); simpl; [rewrite getitem_CephBool|]; reflexivity.
  - destruct simple; [|reflexivity].
    destruct (Py.equal (CmdParam.type p) (Py.VStr "CephChoices")) eqn:Ec.
    + apply equal_str in Ec. rewrite Ec. simpl.
      destruct (CmdParam.strings p) as [|v vs]; simpl; [|reflexivity].
      destruct (CmdParam.range p) as [|r rs]; simpl; [|reflexivity].
      destruct (Py.getitem CmdParam.bash_example (Py.VStr "CephChoices")); reflexivity.
    + simpl.
      destruct (Py.equal (CmdParam.type p) (Py.VStr "CephString")) eqn:Es.
      * apply equal_str in Es. rewrite Es. simpl.
        destruct (CmdParam.range p) as [|r rs]; simpl;
          [rewrite getitem_CephString|]; reflexivity.
      * simpl. destruct (CmdParam.range p) as [|r rs]; simpl; [|reflexivity].
        destruct (Py.getitem CmdParam.bash_example (CmdParam.type p)); reflexivity.
Qed.

Lemma mk_bash_example_cases_witness :
  exists p,
    CmdParam.init Sample.format = Py.Ok p /\
    CmdParam.mk_bash_example p true = Py.Ok "json"%string.
Proof.
  destruct (CmdParam.init Sample.format) as [p|e] eqn:E; [|vm_compute in E; discriminate E].
  vm_compute in E. injection E as <-.
  eexists. split; [reflexivity|].
  match goal with
  | |- CmdParam.mk_bash_example ?q true = _ =>
      rewrite (proj1 (mk_bash_example_cases q "format" true eq_refl))
  end.
  reflexivity.
Defined.

(** ** Worked examples *)

(** A JSON [false] is not the string ["false"]: the parameter stays
    required. *)
Example req_json_false_is_required :
  (p ← CmdParam.init (Sample.with_req "CephInt" "n" (Py.VBool false));
   Py.Ok (CmdParam.req p)) = Py.Ok true.
Proof. reflexivity. Qed.

Example who_present_raises :
  CmdParam.init
    (CmdParam.Kwargs (Py.VStr "CephString") (Py.VStr "id")
       (Some (Py.VStr "mon")) None None None None None)
  = Py.Raise Py.AssertionError.
Proof. reflexivity. Qed.

Example deprecated_hidden_text :
  Flags.str (Flags.Build (Py.VInt 36)) = Py.Ok "deprecated, hidden"%string.
Proof. vm_compute. reflexivity. Qed.

Example unknown_bits_text :
  Flags.str (Flags.Build (Py.VInt (64 + 1024))) = Py.Ok EmptyString.
Proof. vm_compute. reflexivity. Qed.

Example mon_compact_example :
  (c ← CmdCommand.init (Sample.bare ["mon"; "compact"]%string 0);
   CmdCommand.mk_bash_example c) = Py.Ok "ceph mon compact"%string.
Proof. vm_compute. reflexivity. Qed.

Example pool_set_example :
  (c ← CmdCommand.init Sample.pool_set; CmdCommand.mk_bash_example c)
  = Py.Ok "ceph osd pool set --pool=poolname --val=string --var=string --force"%string.
Proof. vm_compute. reflexivity. Qed.

Example split_keeps_empty_entries :
  Py.split "|"%char "json|plain||" = ["json"; "plain"; EmptyString; EmptyString]%string.
Proof. reflexivity. Qed.

(** ** Parameter help text *)

Lemma has_space_app (a b : string) :
  has_space (a +:+ b) = has_space a || has_space b.
Proof.
  induction a as [|c a IH]; simpl; [reflexivity|].
  rewrite IH. apply orb_assoc.
Qed.

Lemma has_space_join_head (f : string) (fs : list string) :
  has_space f = true -> has_space (Py.join " " (f :: fs)) = true.
Proof.
  intros Hf. unfold Py.join. destruct fs as [|g fs]; simpl; [exact Hf|].
  rewrite has_space_app, Hf. reflexivity.
Qed.

Lemma help_fragments (p : CmdParam.param) (typ : list string) :
  Forall (fun f => has_space f = true) typ ->
  Forall (fun f => has_space f = true)
    (typ
     ++ (if CmdParam.nonempty (CmdParam.range p)
         then ["range= ``" +:+ Py.join ".." (CmdParam.range p) +:+ "`` "] else [])
     ++ (if CmdParam.nonempty (CmdParam.strings p)
         then ["strings=(" +:+ Py.join " " (CmdParam.strings p) +:+ ") "] else [])
     ++ (if Py.truthy (CmdParam.goodchars p)
         then ["goodchars= ``" +:+ Py.str (CmdParam.goodchars p) +:+ "`` "] else [])
     ++ (if CmdParam.n p then ["(can be repeated)"%string] else [])).
Proof.
  intros Htyp. repeat apply Forall_app_2; try exact Htyp.
  - destruct (CmdParam.nonempty (CmdParam.range p)); constructor; [reflexivity|constructor].
  - destruct (CmdParam.nonempty (CmdParam.strings p)); constructor; [|constructor].
    rewrite !has_space_app. simpl. apply orb_true_r.
  - destruct (Py.truthy (CmdParam.goodchars p)); constructor; [reflexivity|constructor].
  - destruct (CmdParam.n p); constructor; [reflexivity|constructor].
Qed.

(** X1: [help] raises [TypeError] exactly when the type tag is not a
    string; for a string tag it always returns a text. *)
Theorem help_needs_string_type (p : CmdParam.param) :
  match CmdParam.type p with
  | Py.VStr _ => exists s, CmdParam.help p = Py.Ok s
  | _ => CmdParam.help p = Py.Raise Py.TypeError
  end.
Proof.
  unfold CmdParam.help.
  destruct (CmdParam.type p) as [|b|z|ty]; try reflexivity.
  destruct (Py.not_equal (Py.VStr ty) (Py.VStr "CephString")); simpl;
    eexists; reflexivity.
Qed.

(** X2: [help] answers the bare fallback ["(string)"] exactly for a
    [CephString] with no range, no allowed values, no character
    constraint and no repetition; every other help text holds a space. *)
Theorem help_fallback_iff (p : CmdParam.param) :
  (CmdParam.help p = Py.Ok "(string)"%string <->
     CmdParam.type p = Py.VStr "CephString"
     /\ CmdParam.range p = [] /\ CmdParam.strings p = []
     /\ Py.truthy (CmdParam.goodchars p) = false /\ CmdParam.n p = false)
  /\ (forall s, CmdParam.help p = Py.Ok s -> s <> "(string)"%string ->
        has_space s = true).
Proof.
  assert (forall typ,
            Forall (fun f => has_space f = true) typ ->
            forall s,
              Py.Ok (Py.join " "
                (let advanced :=
                   typ
                   ++ (if CmdParam.nonempty (CmdParam.range p)
                       then ["range= ``" +:+ Py.join ".." (CmdParam.range p) +:+ "`` "]
                       else [])
                   ++ (if CmdParam.nonempty (CmdParam.strings p)
                       then ["strings=(" +:+ Py.join " " (CmdParam.strings p) +:+ ") "]
                       else [])
                   ++ (if Py.truthy (CmdParam.goodchars p)
                       then ["goodchars= ``" +:+ Py.str (CmdParam.goodchars p) +:+ "`` "]
                       else [])
                   ++ (if CmdParam.n p then ["(can be repeated)"%string] else []) in
                 if CmdParam.nonempty advanced then advanced else ["(string)"%string]))
              = Py.Ok s ->
              (has_space s = true)
              \/ (s = "(string)"%string /\ typ = []
                  /\ CmdParam.range p = [] /\ CmdParam.strings p = []
                  /\ Py.truthy (CmdParam.goodchars p) = false /\ CmdParam.n p = false))
    as Hcases.
  { intros typ Htyp s. pose proof (help_fragments p typ Htyp) as Hall.
    cbv zeta.
    destruct (typ ++ _) as [|f fs] eqn:E.
    - intros [= <-]. right.
      apply app_eq_nil in E as [-> E]. apply app_eq_nil in E as [E1 E].
      apply app_eq_nil in E as [E2 E]. apply app_eq_nil in E as [E3 E4].
      split; [reflexivity|]. split; [reflexivity|].
      destruct (CmdParam.range p); [|discriminate].
      destruct (CmdParam.strings p); [|discriminate].
      destruct (Py.truthy (CmdParam.goodchars p)); [discriminate|].
      destruct (CmdParam.n p); [discriminate|]. auto.
    - intros [= <-]. left. apply has_space_join_head.
      apply Forall_cons in Hall as [Hf _]. exact Hf. }
  unfold CmdParam.help.
  destruct (Py.not_equal (CmdParam.type p) (Py.VStr "CephString")) eqn:Ety.
  - (* the type fragment is present *)
    destruct (CmdParam.type p) as [|b|z|ty] eqn:Et; simpl.
    1-3: split; [split; [discriminate | intros (H & _); discriminate H] | discriminate].
    assert (Forall (fun f => has_space f = true) [ty +:+ " "]) as Htyp.
    { constructor; [|constructor]. rewrite has_space_app. apply orb_true_r. }
    split.
    + split.
      * intros H. destruct (Hcases _ Htyp _ H) as [Hsp|(_ & Hnil & _)]; discriminate.
      * intros (H & _). injection H as ->. discriminate Ety.
    + intros s H Hne. destruct (Hcases _ Htyp _ H) as [Hsp|(_ & Hnil & _)];
        [exact Hsp | discriminate].
  - (* no type fragment: the tag is CephString *)
    unfold Py.not_equal in Ety. apply negb_false_iff, equal_str in Ety.
    simpl. split.
    + split.
      * intros H. destruct (Hcases [] (List.Forall_nil _) _ H) as [Hsp|(_ & _ & Hrest)];
          [discriminate | auto].
      * intros (_ & -> & -> & -> & ->). reflexivity.
    + intros s H Hne. destruct (Hcases [] (List.Forall_nil _) _ H) as [Hsp|(Hs & _)];
        [exact Hsp | contradiction].
Qed.

(** ** Flag Set: truth value, substring queries, masks that are no numbers *)

Lemma bool_selection (f : Z * string -> bool) :
  negb (Py.join ", " (map snd (List.filter f canonical)) =? EmptyString)%string
  = existsb f Flags.VALS.
Proof.
  rewrite VALS_literal. cbn [existsb]. each_selection f; vm_compute; reflexivity.
Qed.

(** X3: a Flag Set over an integer mask is true exactly when the mask
    contains the bit value of at least one flag of the enumeration. *)
Theorem flags_bool_iff_some_flag (m : Z) :
  Flags.bool (Flags.Build (Py.VInt m)) = Py.Ok (existsb (bit_set m) Flags.VALS).
Proof.
  unfold Flags.bool. rewrite str_int, bind_Ok, bool_selection. reflexivity.
Qed.

Lemma prefix_app_iff (a s : string) :
  String.prefix a s = true <-> exists t, s = a +:+ t.
Proof.
  revert s. induction a as [|c a IH]; intros s.
  - split; [intros _; exists s; reflexivity | intros _; destruct s; reflexivity].
  - destruct s as [|d s]; simpl.
    + split; [discriminate | intros [t Ht]; discriminate Ht].
    + destruct (ascii_dec c d) as [->|Hne].
      * rewrite IH. split; intros [t Ht]; exists t; [rewrite Ht; reflexivity|].
        injection Ht as ->. reflexivity.
      * split; [discriminate | intros [t Ht]; injection Ht as -> _; contradiction].
Qed.

Lemma contains_unfold (a s : string) :
  Py.contains a s
  = String.prefix a s
    || match s with EmptyString => false | String _ s' => Py.contains a s' end.
Proof. destruct s; reflexivity. Qed.

Lemma append_assoc (a b c : string) : (a +:+ b) +:+ c = a +:+ (b +:+ c).
Proof.
  induction a as [|x a IH]; [reflexivity|].
  change (String x ((a +:+ b) +:+ c) = String x (a +:+ (b +:+ c))).
  rewrite IH. reflexivity.
Qed.

Lemma contains_iff (a s : string) :
  Py.contains a s = true <-> exists pre post, s = pre +:+ a +:+ post.
Proof.
  split.
  - induction s as [|c s IH]; rewrite contains_unfold, orb_true_iff.
    + intros [H|H]; [|discriminate].
      apply prefix_app_iff in H as [t Ht]. exists EmptyString, t. exact Ht.
    + intros [H|H].
      * apply prefix_app_iff in H as [t Ht]. exists EmptyString, t. exact Ht.
      * destruct (IH H) as (pre & post & ->). exists (String c pre), post. reflexivity.
  - intros (pre & post & ->). induction pre as [|c pre IH].
    + rewrite contains_unfold. apply orb_true_iff. left.
      apply prefix_app_iff. exists post. reflexivity.
    + simpl. rewrite IH. apply orb_true_r.
Qed.

Lemma contains_trans (a b c : string) :
  Py.contains a b = true -> Py.contains b c = true -> Py.contains a c = true.
Proof.
  rewrite !contains_iff. intros (p1 & q1 & ->) (p2 & q2 & ->).
  exists (p2 +:+ p1), (q1 +:+ q2). rewrite !append_assoc. reflexivity.
Qed.

(** X4: the membership test is a substring test: when a flag's bit value
    is contained in the mask, every substring of that flag's name (the
    empty string too) is reported present. *)
Theorem flags_contains_any_substring (m : Z) (kn : Z * string) (other : string) :
  In kn Flags.VALS ->
  bit_set m kn = true ->
  Py.contains other kn.2 = true ->
  Flags.contains (Flags.Build (Py.VInt m)) other = Py.Ok true.
Proof.
  intros Hin Hbit Hsub. rewrite contains_int. f_equal.
  apply (contains_trans other kn.2); [exact Hsub|].
  pose proof (contains_selection (bit_set m)) as H.
  rewrite Forall_forall in H. rewrite (H kn), Hbit; [reflexivity|].
  apply list_elem_of_In, Hin.
Qed.

Lemma flags_contains_any_substring_witness :
  Flags.contains (Flags.Build (Py.VInt 36)) "hid" = Py.Ok true.
Proof.
  apply (flags_contains_any_substring 36 (32, "hidden"%string) "hid").
  - vm_compute. tauto.
  - reflexivity.
  - reflexivity.
Defined.

Lemma names_not_numeric (v : Py.value) (items : list (Z * string)) :
  items <> [] ->
  match v with
  | Py.VInt _ | Py.VBool _ => exists s, Flags.names v items = Py.Ok s
  | _ => Flags.names v items = Py.Raise Py.TypeError
  end.
Proof.
  intros Hne. destruct v as [|b|z|s].
  - destruct items as [|[k nm] items]; [contradiction | reflexivity].
  - rewrite names_bool, names_int. eexists; reflexivity.
  - rewrite names_int. eexists; reflexivity.
  - destruct items as [|[k nm] items]; [contradiction | reflexivity].
Qed.

(** X5: with a mask that is neither an int nor a bool, rendering,
    membership and truth value all raise [TypeError]; with an int or a
    bool none of them raises. *)
Theorem flags_need_numeric_mask (v : Py.value) (other : string) :
  match v with
  | Py.VInt _ | Py.VBool _ =>
      (exists s, Flags.str (Flags.Build v) = Py.Ok s)
      /\ (exists b, Flags.contains (Flags.Build v) other = Py.Ok b)
      /\ (exists b, Flags.bool (Flags.Build v) = Py.Ok b)
  | _ =>
      Flags.str (Flags.Build v) = Py.Raise Py.TypeError
      /\ Flags.contains (Flags.Build v) other = Py.Raise Py.TypeError
      /\ Flags.bool (Flags.Build v) = Py.Raise Py.TypeError
  end.
Proof.
  assert (Flags.VALS <> []) as Hne by discriminate.
  pose proof (names_not_numeric v Flags.VALS Hne) as H.
  unfold Flags.bool, Flags.contains, Flags.str, Flags.es. cbn [Flags.fs].
  destruct v as [|b|z|s].
  - rewrite H. auto.
  - destruct H as [x ->]. repeat split; eexists; reflexivity.
  - destruct H as [x ->]. repeat split; eexists; reflexivity.
  - rewrite H. auto.
Qed.

(** ** Comprehensions that may raise *)

Lemma map_raise_Forall2 {A B} (f : A -> Py.result B) (l : list A) (ys : list B) :
  Py.map_raise f l = Py.Ok ys <-> Forall2 (fun x y => f x = Py.Ok y) l ys.
Proof.
  revert ys. induction l as [|x l IH]; intros ys; simpl.
  - split.
    + intros [= <-]. constructor.
    + intros H. apply Forall2_nil_inv_l in H as ->. reflexivity.
  - split.
    + intros H. inv_bind H. inv_bind H. injection H as <-.
      constructor; [exact Ha | apply IH, Ha0].
    + intros H. apply Forall2_cons_inv_l in H as (y & ys' & Hy & Hys & ->).
      apply IH in Hys. rewrite Hy, bind_Ok, Hys, bind_Ok. reflexivity.
Qed.

Lemma map_raise_total {A B} (f : A -> Py.result B) (l : list A) :
  (exists ys, Py.map_raise f l = Py.Ok ys) <-> Forall (fun x => exists y, f x = Py.Ok y) l.
Proof.
  induction l as [|x l IH]; simpl.
  - split; [constructor | exists []; reflexivity].
  - split.
    + intros [ys H]. inv_bind H. inv_bind H.
      constructor; [eexists; exact Ha | apply IH; eexists; exact Ha0].
    + intros H. apply Forall_cons in H as [[y Hy] Hl].
      apply IH in Hl as [ys Hys]. exists (y :: ys).
      rewrite Hy, bind_Ok, Hys, bind_Ok. reflexivity.
Qed.

(** A comprehension raises what its first failing element raises. *)
Lemma map_raise_Raise {A B} (f : A -> Py.result B) (l : list A) (e : Py.exn) :
  Py.map_raise f l = Py.Raise e <->
  exists l1 x l2,
    l = l1 ++ x :: l2
    /\ Forall (fun x => exists y, f x = Py.Ok y) l1
    /\ f x = Py.Raise e.
Proof.
  induction l as [|x l IH]; simpl.
  - split; [discriminate|]. intros (l1 & y & l2 & H & _). destruct l1; discriminate H.
  - split.
    + destruct (f x) as [y|e'] eqn:Hx; simpl.
      * destruct (Py.map_raise f l) as [ys|e''] eqn:Hl; simpl; [discriminate|].
        intros [= ->]. destruct (proj1 IH eq_refl) as (l1 & z & l2 & -> & Hok & Hz).
        exists (x :: l1), z, l2. split; [reflexivity|]. split; [|exact Hz].
        constructor; [eexists; exact Hx | exact Hok].
      * intros [= ->]. exists [], x, l.
        split; [reflexivity|]. split; [constructor | exact Hx].
    + intros (l1 & z & l2 & Heq & Hok & Hz).
      destruct l1 as [|x1 l1]; simpl in Heq; injection Heq as -> ->.
      * rewrite Hz. reflexivity.
      * apply Forall_cons in Hok as [[y Hy] Hok]. rewrite Hy, bind_Ok.
        assert (Py.map_raise f (l1 ++ z :: l2) = Py.Raise e) as ->; [|reflexivity].
        apply IH. exists l1, z, l2. auto.
Qed.

(** ** Construction: outcomes, partition, round trip *)

Lemma split_if_not_delimited (o : option Py.value) :
  delimited o = false ->
  CmdParam.split_if (default Py.VNone o) = Py.Raise Py.AttributeError.
Proof.
  unfold CmdParam.split_if.
  destruct o as [[|b|z|s]|]; simpl; try discriminate.
  - rewrite negb_false_iff. intros ->. reflexivity.
  - rewrite negb_false_iff. intros ->. reflexivity.
Qed.

Lemma split_if_Ok_delimited (o : option Py.value) (l : list string) :
  CmdParam.split_if (default Py.VNone o) = Py.Ok l -> delimited o = true.
Proof.
  intros H. destruct (delimited o) eqn:E; [reflexivity|].
  rewrite (split_if_not_delimited o E) in H. discriminate.
Qed.

(** X6: a parameter constructs exactly when [who] is absent or null and
    [range] and [strings] are each a string, absent or a false value; a
    true [range] or [strings] that is no string raises [AttributeError],
    and does so before the [who] assertion is reached. *)
Theorem param_init_outcome (kw : CmdParam.kwargs) :
  ((exists p, CmdParam.init kw = Py.Ok p) <->
     who_absent kw = true
     /\ delimited (CmdParam.kw_range kw) = true
     /\ delimited (CmdParam.kw_strings kw) = true)
  /\ (delimited (CmdParam.kw_range kw) && delimited (CmdParam.kw_strings kw) = false ->
      CmdParam.init kw = Py.Raise Py.AttributeError).
Proof.
  split.
  - split.
    + intros [p H]. apply init_param_inv in H as (_ & _ & _ & _ & Hr & Hs & Hw).
      eauto using split_if_Ok_delimited.
    + intros (Hw & Hr & Hs).
      destruct (split_if_delimited _ Hr) as [lr Hlr].
      destruct (split_if_delimited _ Hs) as [ls Hls].
      unfold CmdParam.init. rewrite Hlr, bind_Ok, Hls, bind_Ok.
      replace (Py.equal (default Py.VNone (CmdParam.kw_who kw)) Py.VNone) with true.
      * eexists. reflexivity.
      * unfold who_absent in Hw.
        destruct (CmdParam.kw_who kw) as [[| | |]|]; try discriminate; reflexivity.
  - intros H. unfold CmdParam.init.
    destruct (delimited (CmdParam.kw_range kw)) eqn:Hr.
    + simpl in H. destruct (split_if_delimited _ Hr) as [lr ->].
      rewrite bind_Ok, (split_if_not_delimited _ H). reflexivity.
    + rewrite (split_if_not_delimited _ Hr). reflexivity.
Qed.

Lemma literals_descriptors_length (sig : list CmdCommand.sig_item) :
  (length (CmdCommand.literals sig) + length (CmdCommand.descriptors sig))%nat
  = length sig.
Proof.
  induction sig as [|[s|d] sig IH]; simpl; lia.
Qed.

(** X7: construction splits the signature without losing or adding an
    item: the literal tokens and the parameters together are as many as
    the raw signature's items, and the parameters are a rearrangement of
    the constructed descriptors. *)
Theorem command_init_partition (kw : CmdCommand.kwargs) (c : CmdCommand.command) :
  CmdCommand.init kw = Py.Ok c ->
  (length (CmdCommand.sig c) + length (CmdCommand.params c))%nat
    = length (CmdCommand.kw_sig kw)
  /\ exists ps,
       Forall2 (fun d p => CmdParam.init d = Py.Ok p)
         (CmdCommand.descriptors (CmdCommand.kw_sig kw)) ps
       /\ Permutation (CmdCommand.params c) ps.
Proof.
  intros H. apply init_command_inv in H as (ps & Hps & Hsig & Hpar & _).
  apply map_raise_Forall2 in Hps.
  assert (Permutation (CmdCommand.params c) ps) as Hperm
    by (rewrite Hpar; apply sorted_Permutation).
  split; [|exists ps; split; assumption].
  rewrite Hsig, (Permutation_length Hperm), <- (Forall2_length _ _ _ Hps).
  apply literals_descriptors_length.
Qed.

Lemma command_init_partition_witness :
  exists c,
    CmdCommand.init Sample.pool_set = Py.Ok c /\
    (length (CmdCommand.sig c) + length (CmdCommand.params c))%nat = 7%nat.
Proof.
  destruct (CmdCommand.init Sample.pool_set) as [c|e] eqn:E; [|vm_compute in E; discriminate E].
  destruct (command_init_partition Sample.pool_set c E) as [Hlen _].
  exists c. split; [reflexivity | exact Hlen].
Defined.

(** X8: a command constructs exactly when every descriptor of its
    signature constructs, and otherwise raises what the first failing
    descriptor raises. *)
Theorem command_init_outcome (kw : CmdCommand.kwargs) :
  ((exists c, CmdCommand.init kw = Py.Ok c) <->
     Forall (fun d => exists p, CmdParam.init d = Py.Ok p)
       (CmdCommand.descriptors (CmdCommand.kw_sig kw)))
  /\ (forall e,
        CmdCommand.init kw = Py.Raise e <->
        exists ds d ds',
          CmdCommand.descriptors (CmdCommand.kw_sig kw) = ds ++ d :: ds'
          /\ Forall (fun d => exists p, CmdParam.init d = Py.Ok p) ds
          /\ CmdParam.init d = Py.Raise e).
Proof.
  split.
  - rewrite <- map_raise_total. unfold CmdCommand.init. split.
    + intros [c H]. inv_bind H. eexists. exact Ha.
    + intros [ps ->]. eexists. reflexivity.
  - intros e. rewrite <- map_raise_Raise. unfold CmdCommand.init.
    destruct (Py.map_raise CmdParam.init (CmdCommand.descriptors (CmdCommand.kw_sig kw)));
      simpl; split; congruence.
Qed.

Lemma join_cons_cons (sep a b : string) (l : list string) :
  Py.join sep (a :: b :: l) = a +:+ sep +:+ Py.join sep (b :: l).
Proof. reflexivity. Qed.

Lemma join_split (sep : ascii) (s : string) :
  Py.join (String sep EmptyString) (Py.split sep s) = s.
Proof.
  induction s as [|c s IH]; [reflexivity|].
  simpl. destruct (split_head sep s) as [rest Hs]. rewrite Hs in IH |- *.
  destruct (Ascii.eqb c sep) eqn:E.
  - apply Ascii.eqb_eq in E as ->. rewrite join_cons_cons, IH. reflexivity.
  - destruct rest as [|r rest].
    + unfold Py.join in *. simpl in *. rewrite IH. reflexivity.
    + rewrite join_cons_cons in *.
      change (String c (until sep s +:+ String sep EmptyString
                        +:+ Py.join (String sep EmptyString) (r :: rest)) = String c s).
      rewrite IH. reflexivity.
Qed.

Lemma split_if_join (o : option Py.value) (l : list string) (s : string) :
  CmdParam.split_if (default Py.VNone o) = Py.Ok l ->
  o = Some (Py.VStr s) ->
  Py.join "|" l = s.
Proof.
  intros H ->. unfold CmdParam.split_if in H. simpl in H.
  destruct (s =? EmptyString)%string eqn:E; simpl in H; injection H as <-.
  - apply String.eqb_eq in E as ->. reflexivity.
  - apply (join_split "|"%char).
Qed.

(** X9: splitting loses nothing: joining the stored [strings] (or
    [range]) of a constructed parameter with ["|"] gives back the
    descriptor's field, the empty string included. *)
Theorem param_fields_round_trip (kw : CmdParam.kwargs) (p : CmdParam.param) :
  CmdParam.init kw = Py.Ok p ->
  (forall s, CmdParam.kw_strings kw = Some (Py.VStr s) ->
             Py.join "|" (CmdParam.strings p) = s)
  /\ (forall s, CmdParam.kw_range kw = Some (Py.VStr s) ->
                Py.join "|" (CmdParam.range p) = s).
Proof.
  intros H. apply init_param_inv in H as (_ & _ & _ & _ & Hr & Hs & _).
  split; intros s Hf; eapply split_if_join; eassumption.
Qed.

Lemma param_fields_round_trip_witness :
  exists p,
    CmdParam.init Sample.format = Py.Ok p /\
    Py.join "|" (CmdParam.strings p) = "json|plain"%string.
Proof.
  destruct (CmdParam.init Sample.format) as [p|e] eqn:E; [|vm_compute in E; discriminate E].
  destruct (param_fields_round_trip Sample.format p E) as [Hs _].
  exists p. split; [reflexivity|]. apply Hs. reflexivity.
Defined.

(** ** Example invocations *)

Lemma join_space_spaced (a : string) (l : list string) :
  Py.join " " (a :: l) = a +:+ spaced l.
Proof.
  revert a. induction l as [|b l IH]; intros a.
  - unfold Py.join. simpl. induction a as [|c a IHa]; [reflexivity|].
    change (String c a = String c (a +:+ EmptyString)). rewrite <- IHa. reflexivity.
  - rewrite join_cons_cons, IH. reflexivity.
Qed.

(** X10: the example invocation of a command is ["ceph "], the prefix,
    and then each parameter's own example with one space in front, in
    the stored parameter order; without parameters it is ["ceph "] and
    the prefix alone. *)
Theorem command_example_shape (c : CmdCommand.command) (out : string) :
  CmdCommand.mk_bash_example c = Py.Ok out ->
  (exists exs,
     Forall2 (fun p e => CmdParam.mk_bash_example p (CmdCommand.is_reasonably_simple c)
                         = Py.Ok e)
       (CmdCommand.params c) exs
     /\ out = "ceph " +:+ CmdCommand.prefix c +:+ spaced exs)
  /\ (CmdCommand.params c = [] -> out = "ceph " +:+ CmdCommand.prefix c).
Proof.
  unfold CmdCommand.mk_bash_example. intros H. inv_bind H. injection H as H.
  assert (out = "ceph " +:+ CmdCommand.prefix c +:+ spaced a) as ->.
  { rewrite <- H.
    change (Py.join " " ("ceph"%string :: CmdCommand.prefix c :: a)
            = "ceph " +:+ CmdCommand.prefix c +:+ spaced a).
    rewrite join_cons_cons, join_space_spaced. reflexivity. }
  clear H.
  split.
  - exists a. split; [apply map_raise_Forall2, Ha | reflexivity].
  - intros Hnil. rewrite Hnil in Ha. injection Ha as <-. simpl.
    induction (CmdCommand.prefix c) as [|x q IH]; [reflexivity|].
    change ("ceph " +:+ String x q +:+ EmptyString)
      with ("ceph " +:+ String x (q +:+ EmptyString)).
    f_equal. f_equal.
    clear IH. induction q as [|y q IH]; [reflexivity|].
    change (String y q +:+ EmptyString) with (String y (q +:+ EmptyString)).
    rewrite IH. reflexivity.
Qed.

Lemma command_example_shape_witness :
  exists c out exs,
    CmdCommand.init Sample.pool_set = Py.Ok c
    /\ CmdCommand.mk_bash_example c = Py.Ok out
    /\ out = "ceph " +:+ CmdCommand.prefix c +:+ spaced exs.
Proof.
  destruct (CmdCommand.init Sample.pool_set) as [c|e] eqn:E; [|vm_compute in E; discriminate E].
  destruct (CmdCommand.mk_bash_example c) as [out|e] eqn:E2.
  - destruct (command_example_shape c out E2) as [(exs & _ & Hout) _].
    exists c, out, exs. split; [reflexivity|]. split; [exact E2 | exact Hout].
  - exfalso. vm_compute in E. injection E as <-. vm_compute in E2. discriminate E2.
Defined.

Lemma known_type_lookup (p : CmdParam.param) :
  known_type p = true ->
  exists ty v, CmdParam.type p = Py.VStr ty /\ CmdParam.bash_example !! ty = Some v.
Proof.
  unfold known_type. destruct (CmdParam.type p) as [|b|z|ty]; try discriminate.
  intros H. apply bool_decide_eq_true in H as [v Hv]. exists ty, v. auto.
Qed.

Ltac split_ifs :=
  repeat match goal with
         | |- context [if ?b then _ else _] => destruct b
         end.

Lemma param_example_total (p : CmdParam.param) (simple : bool) :
  known_type p = true -> named p = true ->
  exists s, CmdParam.mk_bash_example p simple = Py.Ok s.
Proof.
  intros Hk Hn. apply known_type_lookup in Hk as (ty & v & Hty & Hv).
  unfold named in Hn. destruct (CmdParam.name p) as [|b|z|nm] eqn:En; try discriminate.
  unfold CmdParam.mk_bash_example, CmdParam.mk_example_value, Py.getitem.
  rewrite Hty, En, Hv.
  destruct (CmdParam.strings p) as [|s0 ss]; destruct (CmdParam.range p) as [|r0 rs];
    cbn [CmdParam.nonempty Py.index0 andb]; rewrite ?andb_false_r;
    split_ifs; cbn; eexists; reflexivity.
Qed.

(** X11: when every parameter of a command has a type tag of the example
    table and a string name, its example invocation is produced: no
    exception. *)
Theorem command_example_total (c : CmdCommand.command) :
  Forall (fun p => known_type p = true /\ named p = true) (CmdCommand.params c) ->
  exists out, CmdCommand.mk_bash_example c = Py.Ok out.
Proof.
  intros H. unfold CmdCommand.mk_bash_example.
  assert (exists exs,
            Py.map_raise
              (fun p => CmdParam.mk_bash_example p (CmdCommand.is_reasonably_simple c))
              (CmdCommand.params c) = Py.Ok exs) as [exs ->].
  { apply map_raise_total. eapply Forall_impl; [exact H|].
    intros p [Hk Hn]. apply param_example_total; assumption. }
  eexists. reflexivity.
Qed.

Lemma command_example_total_witness :
  exists c out,
    CmdCommand.init Sample.pool_set = Py.Ok c
    /\ CmdCommand.mk_bash_example c = Py.Ok out.
Proof.
  destruct (CmdCommand.init Sample.pool_set) as [c|e] eqn:E; [|vm_compute in E; discriminate E].
  assert (Forall (fun p => known_type p = true /\ named p = true) (CmdCommand.params c)) as H.
  { vm_compute in E. injection E as <-.
    repeat (apply List.Forall_cons; [split; vm_compute; reflexivity|]).
    apply List.Forall_nil. }
  destruct (command_example_total c H) as [out Hout].
  exists c, out. split; [reflexivity | exact Hout].
Defined.


Lemma param_example_dashes (p : CmdParam.param) (s : string) :
  CmdParam.mk_bash_example p false = Py.Ok s -> String.prefix "--" s = true.
Proof.
  unfold CmdParam.mk_bash_example. intros H. inv_bind H.
  destruct (Py.equal (CmdParam.type p) (Py.VStr "CephBool")).
  - unfold Py.str_add in H. destruct (CmdParam.name p) as [|b|z|nm]; try discriminate.
    injection H as <-. apply prefix_app_iff. eexists. reflexivity.
  - injection H as <-. apply prefix_app_iff. eexists. reflexivity.
Qed.

(** X13: for a command that is not reasonably simple, every parameter
    token of the example invocation starts with ["--"]. *)
Theorem complex_example_uses_flags (c : CmdCommand.command) (out : string) :
  CmdCommand.is_reasonably_simple c = false ->
  CmdCommand.mk_bash_example c = Py.Ok out ->
  exists exs,
    length exs = length (CmdCommand.params c)
    /\ out = "ceph " +:+ CmdCommand.prefix c +:+ spaced exs
    /\ Forall (fun e => String.prefix "--" e = true) exs.
Proof.
  intros Hs H. unfold CmdCommand.mk_bash_example in H. rewrite Hs in H.
  inv_bind H. injection H as H. exists a.
  apply map_raise_Forall2 in Ha. split; [symmetry; eapply Forall2_length, Ha|]. split.
  - rewrite <- H.
    change (Py.join " " ("ceph"%string :: CmdCommand.prefix c :: a)
            = "ceph " +:+ CmdCommand.prefix c +:+ spaced a).
    rewrite join_cons_cons, join_space_spaced. reflexivity.
  - clear H. induction Ha as [|p e ps es Hp _ IH]; constructor; [|exact IH].
    apply (param_example_dashes p), Hp.
Qed.

Lemma complex_example_uses_flags_witness :
  exists c out exs,
    CmdCommand.init Sample.pool_set = Py.Ok c
    /\ CmdCommand.mk_bash_example c = Py.Ok out
    /\ Forall (fun e => String.prefix "--" e = true) exs
    /\ out = "ceph " +:+ CmdCommand.prefix c +:+ spaced exs.
Proof.
  destruct (CmdCommand.init Sample.pool_set) as [c|e] eqn:E; [|vm_compute in E; discriminate E].
  assert (CmdCommand.is_reasonably_simple c = false) as Hs
    by (vm_compute in E; injection E as <-; reflexivity).
  destruct (CmdCommand.mk_bash_example c) as [out|e] eqn:E2.
  - destruct (complex_example_uses_flags c out Hs E2) as (exs & _ & Hout & Hall).
    exists c, out, exs. split; [reflexivity|]. split; [exact E2|]. split; assumption.
  - exfalso. vm_compute in E. injection E as <-. vm_compute in E2. discriminate E2.
Defined.

(** ** The pipeline: when it succeeds, what it raises, what it depends on *)

Lemma contains_numeric_iff (v : Py.value) (other : string) :
  (exists b, Flags.contains (Flags.Build v) other = Py.Ok b) <->
  match v with Py.VInt _ | Py.VBool _ => True | _ => False end.
Proof.
  assert (Flags.VALS <> []) as Hne by discriminate.
  pose proof (names_not_numeric v Flags.VALS Hne) as H.
  unfold Flags.contains, Flags.str, Flags.es. cbn [Flags.fs].
  destruct v as [|b|z|s].
  - rewrite H. split; [intros [b Hb]; discriminate Hb | contradiction].
  - destruct H as [x ->]. split; [trivial | intros _; eexists; reflexivity].
  - destruct H as [x ->]. split; [trivial | intros _; eexists; reflexivity].
  - rewrite H. split; [intros [b Hb]; discriminate Hb | contradiction].
Qed.

Lemma contains_not_numeric (v : Py.value) (other : string) :
  match v with Py.VInt _ | Py.VBool _ => False | _ => True end ->
  Flags.contains (Flags.Build v) other = Py.Raise Py.TypeError.
Proof.
  assert (Flags.VALS <> []) as Hne by discriminate.
  pose proof (names_not_numeric v Flags.VALS Hne) as H.
  unfold Flags.contains, Flags.str, Flags.es. cbn [Flags.fs].
  destruct v as [|b|z|s]; try contradiction; rewrite H; reflexivity.
Qed.

Lemma constructed_contains_iff (kw : CmdCommand.kwargs) (c : CmdCommand.command) :
  CmdCommand.init kw = Py.Ok c ->
  ((exists b, Flags.contains (CmdCommand.flags c) "hidden" = Py.Ok b) <->
   numeric_flags kw = true)
  /\ (numeric_flags kw = false ->
      Flags.contains (CmdCommand.flags c) "hidden" = Py.Raise Py.TypeError).
Proof.
  intros H. apply init_command_inv in H as (_ & _ & _ & _ & ->).
  unfold numeric_flags. split.
  - rewrite contains_numeric_iff.
    destruct (default (Py.VInt 0) (CmdCommand.kw_flags kw)); split; auto; discriminate.
  - intros Hn. apply contains_not_numeric.
    destruct (default (Py.VInt 0) (CmdCommand.kw_flags kw)); try exact I; discriminate.
Qed.

(** X14: the selection succeeds exactly when every manifest entry
    constructs and every [flags] field is an int or a bool (or absent). *)
Theorem selected_succeeds_iff (all : list CmdCommand.kwargs) :
  (exists cmds, selected all = Py.Ok cmds) <->
  Forall (fun kw => (exists c, CmdCommand.init kw = Py.Ok c) /\ numeric_flags kw = true) all.
Proof.
  split.
  - intros [cmds H]. apply selected_inv in H as (cs & Hcs & Hok & _).
    apply map_raise_Forall2 in Hcs.
    induction Hcs as [|kw c all cs Hc _ IH]; [constructor|].
    apply Forall_cons in Hok as [Hb Hok].
    constructor; [|exact (IH Hok)].
    split; [eexists; exact Hc|].
    apply (proj1 (constructed_contains_iff kw c Hc)), Hb.
  - intros H.
    assert (exists cs, Py.map_raise CmdCommand.init all = Py.Ok cs) as [cs Hcs].
    { apply map_raise_total. eapply Forall_impl; [exact H|]. intros kw [Hc _]. exact Hc. }
    eexists. apply (selected_of_constructed all cs Hcs).
    apply map_raise_Forall2 in Hcs.
    induction Hcs as [|kw c all cs Hc _ IH]; [constructor|].
    apply Forall_cons in H as [[_ Hn] H].
    constructor; [|exact (IH H)].
    apply (proj1 (constructed_contains_iff kw c Hc)), Hn.
Qed.

Lemma filter_raise_Raise {A} (f : A -> Py.result bool) (l : list A) (e : Py.exn) :
  Forall (fun x => (exists b, f x = Py.Ok b) \/ f x = Py.Raise e) l ->
  Exists (fun x => f x = Py.Raise e) l ->
  Py.filter_raise f l = Py.Raise e.
Proof.
  induction 1 as [|x l Hx _ IH]; intros Hex.
  - apply Exists_nil in Hex. contradiction.
  - simpl. destruct Hx as [[b Hb]|Hx].
    + rewrite Hb, bind_Ok. apply Exists_cons in Hex as [Hex|Hex]; [congruence|].
      rewrite (IH Hex). reflexivity.
    + rewrite Hx. reflexivity.
Qed.

(** X15: when every entry constructs but some [flags] field is neither
    an int nor a bool, the pipeline raises [TypeError] (from the hidden
    test) and renders nothing. *)
Theorem selected_type_error
    (render : list CmdCommand.command -> Py.result string)
    (all : list CmdCommand.kwargs) (cs : list CmdCommand.command) :
  Py.map_raise CmdCommand.init all = Py.Ok cs ->
  Exists (fun kw => numeric_flags kw = false) all ->
  selected all = Py.Raise Py.TypeError
  /\ mk_sigs render all = Py.Raise Py.TypeError.
Proof.
  intros Hcs Hex.
  assert (selected all = Py.Raise Py.TypeError) as Hsel.
  { unfold selected. rewrite Hcs, bind_Ok.
    apply map_raise_Forall2 in Hcs.
    rewrite (filter_raise_Raise _ cs Py.TypeError); [reflexivity| |].
    - clear Hex. induction Hcs as [|kw c all cs Hc _ IH]; constructor; [|exact IH].
      destruct (constructed_contains_iff kw c Hc) as [Hiff Hraise].
      destruct (numeric_flags kw) eqn:Hn.
      + left. destruct (proj2 Hiff eq_refl) as [b ->]. eexists. reflexivity.
      + right. rewrite (Hraise eq_refl). reflexivity.
    - induction Hcs as [|kw c all cs Hc _ IH].
      + apply Exists_nil in Hex. contradiction.
      + apply Exists_cons in Hex as [Hn|Hex].
        * left. rewrite (proj2 (constructed_contains_iff kw c Hc) Hn). reflexivity.
        * right. apply IH, Hex. }
  split; [exact Hsel|]. unfold mk_sigs. rewrite Hsel. reflexivity.
Qed.

Lemma selected_type_error_witness :
  selected Sample.null_flags = Py.Raise Py.TypeError.
Proof.
  destruct (Py.map_raise CmdCommand.init Sample.null_flags) as [cs|e] eqn:E;
    [|vm_compute in E; discriminate E].
  refine (proj1 (selected_type_error (fun _ => Py.Ok EmptyString)
                   Sample.null_flags cs E _)).
  right. left. reflexivity.
Defined.

Lemma Forall2_omap {A B} (f : A -> Py.result B) (l : list A) (ys : list B) :
  Forall2 (fun x y => f x = Py.Ok y) l ys ->
  omap (fun x => match f x with Py.Ok y => Some y | Py.Raise _ => None end) l = ys.
Proof.
  induction 1 as [|x y l ys Hx _ IH]; [reflexivity|].
  cbn. rewrite Hx. cbn. rewrite IH. reflexivity.
Qed.

Lemma list_filter_Permutation {A} (f : A -> bool) (l l' : list A) :
  Permutation l l' -> Permutation (List.filter f l) (List.filter f l').
Proof.
  induction 1 as [|x l l' _ IH|x y l|l l' l'' _ IH1 _ IH2]; simpl.
  - reflexivity.
  - destruct (f x); [constructor|]; exact IH.
  - destruct (f x), (f y); try reflexivity. apply perm_swap.
  - etransitivity; eassumption.
Qed.

Lemma NoDup_map_inj {A B} (f : A -> B) (l : list A) (x y : A) :
  NoDup (map f l) -> x ∈ l -> y ∈ l -> f x = f y -> x = y.
Proof.
  induction l as [|z l IH]; simpl; intros Hnd Hx Hy Hf.
  - apply elem_of_nil in Hx. contradiction.
  - apply NoDup_cons in Hnd as [Hz Hnd].
    apply elem_of_cons in Hx as [->|Hx]; apply elem_of_cons in Hy as [->|Hy].
    + reflexivity.
    + exfalso. apply Hz. rewrite Hf. apply (list_elem_of_fmap_2 f), Hy.
    + exfalso. apply Hz. rewrite <- Hf. apply (list_elem_of_fmap_2 f), Hx.
    + apply IH; assumption.
Qed.

(** X16: the order of the manifest does not matter: when the selection
    succeeds and the selected signatures are pairwise distinct, any
    rearrangement of the manifest gives the same sequence. *)
Theorem selected_order_independent
    (all all' : list CmdCommand.kwargs) (cmds : list CmdCommand.command) :
  Permutation all all' ->
  selected all = Py.Ok cmds ->
  NoDup (map CmdCommand.sig cmds) ->
  selected all' = Py.Ok cmds.
Proof.
  intros Hperm H Hnd.
  destruct (selected_inv all cmds H) as (cs & Hcs & Hok & Hcmds).
  assert (exists cs', Py.map_raise CmdCommand.init all' = Py.Ok cs') as [cs' Hcs'].
  { apply map_raise_total. rewrite <- Hperm. apply map_raise_total. eauto. }
  assert (Permutation cs cs') as Hpcs.
  { apply map_raise_Forall2, Forall2_omap in Hcs, Hcs'.
    rewrite <- Hcs, <- Hcs'. apply omap_Permutation, Hperm. }
  assert (Forall (fun c => exists b, Flags.contains (CmdCommand.flags c) "hidden" = Py.Ok b)
            cs') as Hok' by (rewrite <- Hpcs; exact Hok).
  rewrite (selected_of_constructed all' cs' Hcs' Hok'). f_equal.
  set (keep := fun c => negb (reports_hidden c)) in *.
  assert (Permutation (Py.sorted Py.list_lt CmdCommand.sig false (List.filter keep cs'))
            cmds) as Hp.
  { rewrite Hcmds, !sorted_Permutation. symmetry. apply list_filter_Permutation, Hpcs. }
  apply (StronglySorted_unique_strong
           (fun a b => Py.list_lt (CmdCommand.sig b) (CmdCommand.sig a) = false)).
  - intros x1 x2 Hx1 Hx2 H12 H21. rewrite Hp in Hx1.
    apply (NoDup_map_inj CmdCommand.sig cmds); try assumption.
    apply (st_total Py.list_lt list_lt_strict_total); assumption.
  - apply (sorted_StronglySorted Py.list_lt CmdCommand.sig false list_lt_strict_total).
  - rewrite Hcmds.
    apply (sorted_StronglySorted Py.list_lt CmdCommand.sig false list_lt_strict_total).
  - exact Hp.
Qed.

Lemma selected_order_independent_witness :
  selected Sample.manifest' = selected Sample.manifest.
Proof.
  destruct (selected Sample.manifest) as [cmds|e] eqn:E; [|vm_compute in E; discriminate E].
  apply (selected_order_independent Sample.manifest Sample.manifest' cmds).
  - symmetry.
    apply (Permutation_cons_append
             [Sample.bare ["mon"; "compact"]%string 0; Sample.bare ["osd"; "down"]%string 36]
             (Sample.bare ["auth"; "add"]%string 4)).
  - exact E.
  - vm_compute in E. injection E as <-.
    refine (bool_decide_unpack _ _). vm_compute. exact I.
Defined.


